(** * tunnel-server/src/app.ts: request dispatch and the login handshake

    A shallow embedding of [app.ts] and the properties its specification
    states about it.

    - The HTTP server in front of Fastify: the host classifier
      [isNonProxyRequest] and the two entry points, [on_request] and
      [on_upgrade], as functions to the list of effects they perform.
    - The Fastify handlers [profile_tunnels] ([/profiles/:profileId/tunnels])
      and [login] ([/login]), in a state monad that records the calls to the
      collaborators and the reply in program order. [await] is explicit: a
      call that is awaited lets the event loop turn before the handler goes
      on, a call that is not awaited does not.
    - What [app.ts] uses of the platform: [String.prototype.split],
      [encodeURIComponent], and the [URL] class for http and https, after the
      URL Standard. The host parser of the URL Standard is a parameter.
    - [editUrl] (url.js) and the session object (session.js) are not among
      the sources and are modelled from the specification.

    Strings are sequences of bytes ([string]); a JavaScript string is read
    as its UTF-8 encoding. *)

From Stdlib Require Import List String Ascii Bool Arith NArith Lia DecimalString.
Import ListNotations.
Open Scope string_scope.

(* ================================================================== *)
(** * Definitions *)
(* ================================================================== *)

(** ** JavaScript string primitives *)

(** [s.split(sep)] for a one-character separator: the pieces of [s]
    between the occurrences of [sep]; never empty. *)
Fixpoint split (sep : ascii) (s : string) : list string :=
  match s with
  | EmptyString => [EmptyString]
  | String c rest =>
      if Ascii.eqb c sep then EmptyString :: split sep rest
      else match split sep rest with
           | piece :: pieces => String c piece :: pieces
           | [] => [String c EmptyString]
           end
  end.

(** [o?.f()]: optional chaining, [undefined] is [None]. *)
Definition opt_chain {A B : Type} (o : option A) (f : A -> option B) : option B :=
  match o with
  | Some a => f a
  | None => None
  end.

(** [x === y] for a possibly undefined [x] and a string [y]. *)
Definition strict_eq (x : option string) (y : string) : bool :=
  match x with
  | Some s => String.eqb s y
  | None => false
  end.

(** [s.startsWith(p)]. *)
Definition startsWith (s p : string) : bool := String.prefix p s.

(** ASCII lower-casing: of hosts and schemes in the URL parser, and to
    speak about Host headers that differ in letter case only. *)
Definition lower_ascii (c : ascii) : ascii :=
  let n := nat_of_ascii c in
  if ((65 <=? n) && (n <=? 90))%nat then ascii_of_nat (n + 32) else c.

Fixpoint lower (s : string) : string :=
  match s with
  | EmptyString => EmptyString
  | String c rest => String (lower_ascii c) (lower rest)
  end.

(** ** The HTTP server in front of Fastify (serverFactory) *)

(** The part of [http.IncomingMessage] the dispatcher reads. *)
Record IncomingMessage := mkReq {
  req_method : string;
  req_url : string;
  headers_host : option string   (* headers.host, undefined when absent *)
}.

Definition authHostname (baseHostname : string) : string := "auth." ++ baseHostname.
Definition apiHostname (baseHostname : string) : string := "api." ++ baseHostname.

(** [const host = headers.host?.split(':')?.[0]] *)
Definition request_host (req : IncomingMessage) : option string :=
  opt_chain (opt_chain (headers_host req) (fun h => Some (split ":" h)))
            (fun pieces => nth_error pieces 0).

(** app.ts, lines 42-45. *)
Definition isNonProxyRequest (baseHostname : string) (req : IncomingMessage) : bool :=
  let host := request_host req in
  strict_eq host (authHostname baseHostname) || strict_eq host (apiHostname baseHostname).

(** The two classes of the spec's hostname classifier. *)
Inductive traffic := ControlPlane | TunnelTraffic.

Definition classify (baseHostname : string) (req : IncomingMessage) : traffic :=
  if isNonProxyRequest baseHostname req then ControlPlane else TunnelTraffic.

(** The spec's words for the classifier's input: the Host header with any
    port suffix stripped, that is the header up to its first colon. *)
Fixpoint strip_port (h : string) : string :=
  match h with
  | EmptyString => EmptyString
  | String c rest => if Ascii.eqb c ":" then EmptyString else String c (strip_port rest)
  end.

(** A handler returned by the proxy; the closure is opaque here. *)
Inductive proxy_handler := ProxyHandlerRef (id : nat).

(** The tunnel proxy: a falsy return is [None], "not my traffic". *)
Record Proxy := mkProxy {
  routeRequest : IncomingMessage -> option proxy_handler;
  routeUpgrade : IncomingMessage -> option proxy_handler
}.

(** What the server does, in program order. *)
Inductive effect :=
| LogDebug (what : string)
| LogWarn (what : string)
| RouteRequest (req : IncomingMessage)          (* proxy.routeRequest(req) *)
| RouteUpgrade (req : IncomingMessage)          (* proxy.routeUpgrade(req) *)
| ProxyServes (h : proxy_handler) (req : IncomingMessage)    (* proxyHandler(req, res) *)
| ProxyUpgrades (h : proxy_handler) (req : IncomingMessage)  (* proxyHandler(req, socket, head) *)
| FastifyServes (req : IncomingMessage)         (* handler(req, res) *)
| SocketEnd (data : string).                    (* socket.end(data) *)

(** [!isNonProxyRequest(req) && route(req)]: the right operand is only
    evaluated for tunnel traffic. *)
Definition offer (baseHostname : string) (route : IncomingMessage -> option proxy_handler)
    (called : IncomingMessage -> effect) (req : IncomingMessage)
    : list effect * option proxy_handler :=
  if negb (isNonProxyRequest baseHostname req) then ([called req], route req)
  else ([], None).

(** app.ts, lines 47-53: [http.createServer((req, res) => ...)]. *)
Definition on_request (baseHostname : string) (proxy : Proxy) (req : IncomingMessage)
    : list effect :=
  let logged := if negb (String.eqb (req_url req) "/healthz")
                then [LogDebug "request %j"] else [] in
  let '(offered, proxyHandler) := offer baseHostname (routeRequest proxy) RouteRequest req in
  (logged ++ offered ++
   match proxyHandler with
   | Some h => [ProxyServes h req]
   | None => [FastifyServes req]
   end)%list.

(** app.ts, lines 54-64: [.on('upgrade', (req, socket, head) => ...)]. *)
Definition on_upgrade (baseHostname : string) (proxy : Proxy) (req : IncomingMessage)
    : list effect :=
  let '(offered, proxyHandler) := offer baseHostname (routeUpgrade proxy) RouteUpgrade req in
  ([LogDebug "upgrade"] ++ offered ++
   match proxyHandler with
   | Some h => [ProxyUpgrades h req]
   | None => [LogWarn "upgrade request %j not found"; SocketEnd "Not found"]
   end)%list.

(** What reached the raw socket from the server itself, and whether the
    server closed it: [socket.end(data)] writes [data] and closes. *)
Fixpoint socket_written (t : list effect) : string :=
  match t with
  | [] => EmptyString
  | SocketEnd data :: rest => data ++ socket_written rest
  | _ :: rest => socket_written rest
  end.

Definition is_socket_end (e : effect) : bool :=
  match e with SocketEnd _ => true | _ => false end.

Definition socket_closed (t : list effect) : bool := existsb is_socket_end t.

Definition is_route_upgrade (e : effect) : bool :=
  match e with RouteUpgrade _ => true | _ => false end.

Definition is_fastify (e : effect) : bool :=
  match e with FastifyServes _ => true | _ => false end.

(** ** Characters and percent-encoding (URL Standard, ECMAScript) *)

Definition code (c : ascii) : nat := nat_of_ascii c.

Definition in_range (lo hi : nat) (c : ascii) : bool :=
  ((lo <=? code c) && (code c <=? hi))%nat.

Definition is_digit (c : ascii) : bool := in_range 48 57 c.
Definition is_alpha (c : ascii) : bool := in_range 65 90 c || in_range 97 122 c.
Definition is_alnum (c : ascii) : bool := is_alpha c || is_digit c.

(** Membership of a byte in a set given by its members' codes. *)
Definition code_in (codes : list nat) (c : ascii) : bool :=
  existsb (Nat.eqb (code c)) codes.

(** [/] and [\]: both separate path segments in an http(s) URL. *)
Definition is_slash (c : ascii) : bool := code_in [47; 92] c.

Definition hex_digit (n : nat) : ascii :=
  ascii_of_nat (if (n <? 10)%nat then 48 + n else 55 + n).

Definition hex_value (c : ascii) : option nat :=
  if is_digit c then Some (code c - 48)
  else if in_range 65 70 c then Some (code c - 55)
  else if in_range 97 102 c then Some (code c - 87)
  else None.

(** [%XX] with upper-case hexadecimal digits. *)
Definition percent_byte (c : ascii) : string :=
  String "%" (String (hex_digit (code c / 16)) (String (hex_digit (code c mod 16)) EmptyString)).

(** Percent-encode the bytes of [s] that lie in the set [enc]. *)
Fixpoint percent_encode (enc : ascii -> bool) (s : string) : string :=
  match s with
  | EmptyString => EmptyString
  | String c rest =>
      (if enc c then percent_byte c else String c EmptyString) ++ percent_encode enc rest
  end.

(** Percent-decoding: every [%XX] becomes its byte, anything else stays. *)
Fixpoint percent_decode (s : string) : string :=
  match s with
  | EmptyString => EmptyString
  | String c rest =>
      let plain := String c (percent_decode rest) in
      if Ascii.eqb c "%" then
        match rest with
        | String h (String l rest') =>
            match hex_value h, hex_value l with
            | Some a, Some b => String (ascii_of_nat (16 * a + b)) (percent_decode rest')
            | _, _ => plain
            end
        | _ => plain
        end
      else plain
  end.

(** The percent-encode sets of the URL Standard as it lists them today,
    on bytes. *)
Definition c0_control_set (c : ascii) : bool := ((code c <=? 31) || (126 <? code c))%nat.
Definition fragment_set (c : ascii) : bool := c0_control_set c || code_in [32; 34; 60; 62; 96] c.
Definition query_set (c : ascii) : bool := c0_control_set c || code_in [32; 34; 35; 60; 62] c.
Definition special_query_set (c : ascii) : bool := query_set c || code_in [39] c.
Definition path_set (c : ascii) : bool := query_set c || code_in [63; 94; 96; 123; 125] c.
Definition userinfo_set (c : ascii) : bool :=
  path_set c || code_in [47; 58; 59; 61; 64; 91; 92; 93; 124] c.

(** [encodeURIComponent]: everything is escaped but letters, digits and
    [- _ . ! ~ * ' ( )]. *)
Definition uri_unescaped (c : ascii) : bool :=
  is_alnum c || code_in [45; 95; 46; 33; 126; 42; 39; 40; 41] c.

Definition encodeURIComponent (s : string) : string :=
  percent_encode (fun c => negb (uri_unescaped c)) s.

(** The application/x-www-form-urlencoded serializer behind
    [URLSearchParams.toString()]. *)
Definition form_unescaped (c : ascii) : bool := is_alnum c || code_in [42; 45; 46; 95] c.

Fixpoint form_encode (s : string) : string :=
  match s with
  | EmptyString => EmptyString
  | String c rest =>
      (if Ascii.eqb c " " then "+"
       else if form_unescaped c then String c EmptyString
       else percent_byte c) ++ form_encode rest
  end.

(** The matching decoder: [+] is a space, [%XX] its byte. *)
Fixpoint plus_to_space (s : string) : string :=
  match s with
  | EmptyString => EmptyString
  | String c rest => String (if Ascii.eqb c "+" then " "%char else c) (plus_to_space rest)
  end.

Definition form_decode (s : string) : string := percent_decode (plus_to_space s).

Definition form_pair (kv : string * string) : string :=
  form_encode (fst kv) ++ "=" ++ form_encode (snd kv).

Definition urlencoded (params : list (string * string)) : string :=
  String.concat "&" (map form_pair params).

(** Decimal digits of a port. *)
Fixpoint digits_value (acc : N) (s : string) : option N :=
  match s with
  | EmptyString => Some acc
  | String c rest =>
      if is_digit c then digits_value (10 * acc + N.of_nat (code c - 48))%N rest else None
  end.

Definition decimal (n : N) : string := NilEmpty.string_of_uint (N.to_uint n).

(** ** Cutting strings *)

(** The longest prefix of [s] without a byte of [stop], and what is left
    (starting at the first byte of [stop], or empty). *)
Fixpoint span_until (stop : ascii -> bool) (s : string) : string * string :=
  match s with
  | EmptyString => (EmptyString, EmptyString)
  | String c rest =>
      if stop c then (EmptyString, s)
      else let '(pre, post) := span_until stop rest in (String c pre, post)
  end.

(** [s] cut at its first byte [d]: the part before it, and the part after
    it when [d] occurs. *)
Definition cut_at (d : ascii) (s : string) : string * option string :=
  match span_until (Ascii.eqb d) s with
  | (pre, String _ post) => (pre, Some post)
  | (pre, EmptyString) => (pre, None)
  end.

(** [s] cut at its last byte [d]. *)
Fixpoint cut_at_last (d : ascii) (s : string) : option (string * string) :=
  match s with
  | EmptyString => None
  | String c rest =>
      match cut_at_last d rest with
      | Some (pre, post) => Some (String c pre, post)
      | None => if Ascii.eqb c d then Some (EmptyString, rest) else None
      end
  end.

(** The pieces of [s] between its bytes of [sep]. *)
Fixpoint pieces (sep : ascii -> bool) (s : string) : list string :=
  match s with
  | EmptyString => [EmptyString]
  | String c rest =>
      if sep c then EmptyString :: pieces sep rest
      else match pieces sep rest with
           | p :: ps => String c p :: ps
           | [] => [String c EmptyString]
           end
  end.

Fixpoint drop_while (p : ascii -> bool) (s : string) : string :=
  match s with
  | EmptyString => EmptyString
  | String c rest => if p c then drop_while p rest else s
  end.

Fixpoint drop_while_end (p : ascii -> bool) (s : string) : string :=
  match s with
  | EmptyString => EmptyString
  | String c rest =>
      match drop_while_end p rest with
      | EmptyString => if p c then EmptyString else String c EmptyString
      | kept => String c kept
      end
  end.

Fixpoint remove_all (p : ascii -> bool) (s : string) : string :=
  match s with
  | EmptyString => EmptyString
  | String c rest => if p c then remove_all p rest else String c (remove_all p rest)
  end.

(** ** URLs (the platform's [URL] class, for http and https) *)

Inductive scheme := Http | Https.

Definition scheme_name (s : scheme) : string :=
  match s with Http => "http" | Https => "https" end.

Definition default_port (s : scheme) : N :=
  match s with Http => 80%N | Https => 443%N end.

Definition scheme_eqb (a b : scheme) : bool :=
  match a, b with Http, Http | Https, Https => true | _, _ => false end.

(** A URL record of the URL Standard, restricted to the schemes a gateway
    is served on. [path] holds the path segments; [query] and [fragment]
    are [None] when null. *)
Record URL := mkURL {
  protocol : scheme;
  username : string;
  password : string;
  hostname : string;
  port : option N;
  path : list string;
  query : option string;
  fragment : option string
}.

Definition pathname (u : URL) : string :=
  String.concat EmptyString (map (fun seg => "/" ++ seg) (path u)).

Definition host (u : URL) : string :=
  hostname u ++ match port u with Some p => ":" ++ decimal p | None => EmptyString end.

(** [url.origin]. *)
Definition origin (u : URL) : string := scheme_name (protocol u) ++ "://" ++ host u.

(** [url.toString()], the URL serializer. *)
Definition URL_toString (u : URL) : string :=
  scheme_name (protocol u) ++ "://"
  ++ (if String.eqb (username u) EmptyString && String.eqb (password u) EmptyString
      then EmptyString
      else username u
           ++ (if String.eqb (password u) EmptyString then EmptyString
               else ":" ++ password u)
           ++ "@")
  ++ host u
  ++ pathname u
  ++ match query u with Some q => "?" ++ q | None => EmptyString end
  ++ match fragment u with Some f => "#" ++ f | None => EmptyString end.

(** Path segments [.] and [..], also when written with [%2e]. *)
Definition is_single_dot (seg : string) : bool :=
  existsb (String.eqb (lower seg)) ["."; "%2e"].

Definition is_double_dot (seg : string) : bool :=
  existsb (String.eqb (lower seg)) [".."; ".%2e"; "%2e."; "%2e%2e"].

(** The path state: [acc] is the path so far, [segs] the segments still to
    read; the last one is followed by the end of the path. *)
Fixpoint path_state (acc : list string) (segs : list string) : list string :=
  match segs with
  | [] => acc
  | [seg] =>
      if is_double_dot seg then (removelast acc ++ [EmptyString])%list
      else if is_single_dot seg then (acc ++ [EmptyString])%list
      else (acc ++ [percent_encode path_set seg])%list
  | seg :: rest =>
      if is_double_dot seg then path_state (removelast acc) rest
      else if is_single_dot seg then path_state acc rest
      else path_state (acc ++ [percent_encode path_set seg])%list rest
  end.

(** The path start state on what follows the authority: one leading slash
    is consumed, the rest is cut into segments. *)
Definition path_start (rest : string) : list string :=
  match rest with
  | String c after => if is_slash c then pieces is_slash after else pieces is_slash rest
  | EmptyString => [EmptyString]
  end.

(** The [host] of an authority up to the colon that starts the port; a
    colon between brackets belongs to an IPv6 literal. *)
Fixpoint host_and_port (inside : bool) (s : string) : string * option string :=
  match s with
  | EmptyString => (EmptyString, None)
  | String c rest =>
      if Ascii.eqb c ":" && negb inside then (EmptyString, Some rest)
      else
        let inside' := if Ascii.eqb c "[" then true
                       else if Ascii.eqb c "]" then false else inside in
        let '(h, p) := host_and_port inside' rest in (String c h, p)
  end.

(** The scheme an input names, with what follows its colon. *)
Definition scheme_chars (c : ascii) : bool := is_alnum c || code_in [43; 45; 46] c.

Definition scheme_of (s : string) : option (string * string) :=
  match s with
  | String c _ =>
      if is_alpha c then
        match span_until (fun x => negb (scheme_chars x)) s with
        | (name, String colon rest) =>
            if Ascii.eqb colon ":" then Some (lower name, rest) else None
        | _ => None
        end
      else None
  | EmptyString => None
  end.

(** Leading and trailing C0 controls and spaces are stripped, tabs and
    newlines are removed everywhere. *)
Definition clean_input (s : string) : string :=
  remove_all (code_in [9; 10; 13])
    (drop_while_end (in_range 0 32) (drop_while (in_range 0 32) s)).

Section Platform.

(** The host parser of the URL Standard (domain to ASCII, IPv4 and IPv6
    literals, forbidden code points), which this development does not
    unfold: [None] is failure. *)
Variable parse_host : string -> option string.

(** Authority, host and port states for an http(s) URL: credentials end at
    the last [@]; an empty host, a host the host parser refuses, a port
    that is not a number or exceeds 65535 are failures; the scheme's
    default port is dropped. *)
Definition parse_authority (sch : scheme) (authority : string)
    : option (string * string * string * option N) :=
  let '(creds, hostport) :=
    match cut_at_last "@" authority with
    | Some (c, h) => (c, h)
    | None => (EmptyString, authority)
    end in
  let '(user, pass) := cut_at ":" creds in
  let user' := percent_encode userinfo_set user in
  let pass' := match pass with
               | Some p => percent_encode userinfo_set p
               | None => EmptyString
               end in
  let '(h, digits) := host_and_port false hostport in
  if String.eqb h EmptyString then None
  else
    match parse_host h with
    | None => None
    | Some parsed =>
        match digits with
        | None => Some (user', pass', parsed, None)
        | Some ds =>
            match digits_value 0 ds with
            | None => None
            | Some n =>
                if String.eqb ds EmptyString then Some (user', pass', parsed, None)
                else if (65535 <? n)%N then None
                else Some (user', pass', parsed,
                           if (n =? default_port sch)%N then None else Some n)
            end
        end
    end.

(** What follows the slashes of [scheme://]: the authority up to the next
    slash, then the path. *)
Definition authority_and_path (sch : scheme) (rest : string)
    (q f : option string) : option URL :=
  let '(authority, after) := span_until is_slash rest in
  match parse_authority sch authority with
  | None => None
  | Some (user, pass, h, p) =>
      Some (mkURL sch user pass h p (path_state [] (path_start after)) q f)
  end.

(** The relative state and the relative slash state: a reference without
    a scheme, read against [base].
    - empty: the base's path and query;
    - two leading slashes (or backslashes): an authority follows, only the
      base's scheme is kept;
    - one leading slash: a path from the root of the base's host;
    - anything else: a path relative to the base's path. *)
Definition relative_state (base : URL) (main : string) (q f : option string)
    : option URL :=
  let on_base (segments : list string) (q' : option string) : option URL :=
    Some (mkURL (protocol base) (username base) (password base) (hostname base)
                (port base) segments q' f) in
  match main with
  | EmptyString =>
      on_base (path base) (match q with Some _ => q | None => query base end)
  | String c after =>
      if is_slash c then
        match after with
        | String c2 _ =>
            if is_slash c2
            then authority_and_path (protocol base) (drop_while is_slash after) q f
            else on_base (path_state [] (pieces is_slash after)) q
        | EmptyString => on_base (path_state [] (pieces is_slash after)) q
        end
      else on_base (path_state (removelast (path base)) (pieces is_slash main)) q
  end.

Definition special_scheme (name : string) : option scheme :=
  if String.eqb name "http" then Some Http
  else if String.eqb name "https" then Some Https
  else None.

(** [new URL(input, base)] and, with [base = None], [new URL(input)].
    [None] is the [TypeError] of an invalid URL. An input that names a
    scheme other than http or https has no [URL] record here and is
    answered [None] as well; app.ts passes no such input, since what it
    passes starts with a slash. *)
Definition URL_new (input : string) (base : option URL) : option URL :=
  let s := clean_input input in
  let '(before, f) := cut_at "#" s in
  let '(main, q) := cut_at "?" before in
  let q' := option_map (percent_encode special_query_set) q in
  let f' := option_map (percent_encode fragment_set) f in
  match scheme_of main with
  | Some (name, rest) =>
      match special_scheme name, base with
      | Some sch, Some b =>
          if scheme_eqb sch (protocol b) then relative_state b rest q' f'
          else authority_and_path sch (drop_while is_slash rest) q' f'
      | Some sch, None => authority_and_path sch (drop_while is_slash rest) q' f'
      | None, _ => None
      end
  | None =>
      match base with
      | Some b => relative_state b main q' f'
      | None => None
      end
  end.

End Platform.

(** The forbidden domain code points of the URL Standard. *)
Definition forbidden_domain_code_point (c : ascii) : bool :=
  c0_control_set c
  || code_in [32; 34; 35; 37; 47; 58; 60; 62; 63; 64; 91; 92; 93; 94; 124] c.

(** The last non-empty label of [h] starts with a digit (or there is none). *)
Definition ends_in_digit_label (h : string) : bool :=
  match rev (filter (fun l => negb (String.eqb l EmptyString)) (pieces (Ascii.eqb ".") h)) with
  | lbl :: _ => match lbl with String c _ => is_digit c | EmptyString => false end
  | [] => true
  end.

(** A host parser for plain ASCII domain names, to run examples with: the
    name is lower-cased, and refused when a forbidden domain code point
    occurs. Hosts that need more of the host parser (percent-escapes,
    non-ASCII or punycode labels, IP literals, names whose last label
    starts with a digit) are refused too. *)
Definition domain_host (h : string) : option string :=
  let l := lower h in
  if existsb forbidden_domain_code_point (list_ascii_of_string l) then None
  else if existsb (String.prefix "xn--") (pieces (Ascii.eqb ".") l) then None
  else if ends_in_digit_label l then None
  else Some l.


(** ** Values exchanged with the collaborators *)

#[local] Unset Elimination Schemes.
Inductive json :=
| JNull
| JString (s : string)
| JArray (items : list json)
| JObject (fields : list (string * json)).
#[local] Set Elimination Schemes.

(** Claims are opaque to app.ts. *)
Definition Claims := json.

Module ActiveTunnel.
Record t := mk {
  envId : string;
  hostname : string;
  publicKey : string;
  publicKeyThumbprint : string;
  access : json;
  meta : json
}.
End ActiveTunnel.

(** What an authenticator answers: [{isAuthenticated: true, claims}] or
    [{isAuthenticated: false}]. *)
Inductive AuthResult :=
| Authenticated (claims : Claims)
| Unauthenticated.

Definition isAuthenticated (r : AuthResult) : bool :=
  match r with Authenticated _ => true | Unauthenticated => false end.

Definition Authenticator := IncomingMessage -> AuthResult.

(** The collaborators [app] is given, as far as the handlers use them:
    the two lookups of the tunnel registry, the claims the browser's
    session for a thumbprint holds when it is opened, and the answer of the
    authenticator built for a tunnel. [save_turns] says how
    [session.save()] persists: [0] when the session is durable by the time
    the call returns, [n + 1] when the call returns a promise that settles
    [n + 1] turns of the event loop later. *)
Record Collaborators := mkCollaborators {
  activeTunnelStore_get : string -> option ActiveTunnel.t;
  activeTunnelStore_getByPkThumbprint : string -> option (list ActiveTunnel.t);
  stored_user : IncomingMessage -> string -> option Claims;
  authFactory_result : ActiveTunnel.t -> Authenticator;
  save_turns : nat
}.

Record AppConfig := mkConfig {
  baseUrl : URL;
  saasBaseUrl : option string
}.

(** A JavaScript truthiness test of an optional string. *)
Definition truthy (s : option string) : bool :=
  match s with
  | Some v => negb (String.eqb v EmptyString)
  | None => false
  end.

(** ** Replies *)

Inductive payload :=
| PJson (j : json)
| PText (s : string)
| PEmpty.

Record Response := mkResponse {
  status : nat;
  headers : list (string * string);
  body : payload
}.

(** ** The handlers' effects *)

Inductive event :=
| GetTunnel (envId : string)              (* activeTunnelStore.get(envId) *)
| GetByPkThumbprint (profileId : string)  (* activeTunnelStore.getByPkThumbprint(profileId) *)
| OpenSession (thumbprint : string)       (* sessionStore(req.raw, res.raw, thumbprint) *)
| AuthFactory (tunnel : ActiveTunnel.t)   (* authFactory(tunnel) *)
| Authenticate (req : IncomingMessage)    (* auth(req.raw) *)
| SessionSet (claims : Claims)            (* session.set(claims) *)
| SessionSave                             (* session.save() is called *)
| SessionDurable (thumbprint : string) (user : option Claims)
                                          (* the save is complete: the session is durable *)
| Reply (r : Response).                   (* the response is issued *)

(** The state a handler runs in: the events so far, the completions of
    calls whose promise nobody awaits (with the turns they still need), the
    reply under construction, and the claims the session object holds. *)
Record HandlerState := mkState {
  trace : list event;
  in_flight : list (nat * event);
  statusCode : nat;
  reply_headers : list (string * string);
  session_claims : option Claims
}.

Definition initial : HandlerState := mkState [] [] 200 [] None.

Inductive outcome (A : Type) :=
| Returned (a : A)
| Threw (error : string).
Arguments Returned {A} a.
Arguments Threw {A} error.

(** A handler: state passing, with exceptions. *)
Definition M (A : Type) : Type := HandlerState -> outcome A * HandlerState.

Definition ret {A : Type} (a : A) : M A := fun st => (Returned a, st).

Definition bind {A B : Type} (m : M A) (k : A -> M B) : M B :=
  fun st =>
    match m st with
    | (Returned a, st') => k a st'
    | (Threw e, st') => (Threw e, st')
    end.

Notation "x <- m ;; k" := (bind m (fun x => k))
  (at level 61, m at next level, right associativity).
Notation "m ;; k" := (bind m (fun _ => k))
  (at level 61, right associativity).

Definition throw {A : Type} (e : string) : M A := fun st => (Threw e, st).

Definition emit (e : event) : M unit :=
  fun st => (Returned tt,
             mkState (trace st ++ [e]) (in_flight st) (statusCode st)
                     (reply_headers st) (session_claims st)).

(** One turn of the event loop: the completions that are due happen, the
    others come one turn closer. *)
Definition due (p : nat * event) : bool := (fst p <=? 1)%nat.

Definition turn : M unit :=
  fun st => (Returned tt,
             mkState (trace st ++ map snd (filter due (in_flight st)))
                     (map (fun p => (Nat.pred (fst p), snd p))
                          (filter (fun p => negb (due p)) (in_flight st)))
                     (statusCode st) (reply_headers st) (session_claims st)).

(** [await e]: [e] is evaluated (the call is made), the handler yields to
    the event loop, and resumes with the value. *)
Definition await {A : Type} (call : M A) : M A :=
  a <- call ;; turn ;; ret a.

(** A call whose promise is dropped: its completion happens at once when
    it needs no turn, and is in flight otherwise. *)
Definition complete_after (turns : nat) (e : event) : M unit :=
  match turns with
  | O => emit e
  | S _ =>
      fun st => (Returned tt,
                 mkState (trace st) (in_flight st ++ [(turns, e)]) (statusCode st)
                         (reply_headers st) (session_claims st))
  end.

Definition run {A : Type} (m : M A) : outcome A * HandlerState := m initial.

(** *** The reply object *)

(** [res.statusCode = n] *)
Definition set_statusCode (n : nat) : M unit :=
  fun st => (Returned tt,
             mkState (trace st) (in_flight st) n (reply_headers st) (session_claims st)).

(** [res.header(name, value)] *)
Definition header (name value : string) : M unit :=
  fun st => (Returned tt,
             mkState (trace st) (in_flight st) (statusCode st)
                     (reply_headers st ++ [(name, value)]) (session_claims st)).

(** [res.send(body)], also what Fastify does with the value an async
    handler returns: the reply goes out with the status and the headers
    set so far. *)
Definition send (b : payload) : M Response :=
  fun st =>
    let r := mkResponse (statusCode st) (reply_headers st) b in
    (Returned r,
     mkState (trace st ++ [Reply r]) (in_flight st) (statusCode st)
             (reply_headers st) (session_claims st)).

(** [res.redirect(url)]: a 302 with a [location] header. *)
Definition redirect (url : string) : M Response :=
  header "location" url ;; set_statusCode 302 ;; send PEmpty.

(** *** The tunnel registry and the authenticator *)

Definition get_tunnel (w : Collaborators) (envId : string) : M (option ActiveTunnel.t) :=
  emit (GetTunnel envId) ;; ret (activeTunnelStore_get w envId).

Definition getByPkThumbprint (w : Collaborators) (profileId : string)
    : M (option (list ActiveTunnel.t)) :=
  emit (GetByPkThumbprint profileId) ;; ret (activeTunnelStore_getByPkThumbprint w profileId).

Definition authFactory (w : Collaborators) (tunnel : ActiveTunnel.t) : M Authenticator :=
  emit (AuthFactory tunnel) ;; ret (authFactory_result w tunnel).

Definition call_auth (auth : Authenticator) (raw : IncomingMessage) : M AuthResult :=
  emit (Authenticate raw) ;; ret (auth raw).

(** *** The session *)

(** Modelled from the spec: session.js is not among the sources. The spec
    gives a session a [user] (the current claims, absent if
    unauthenticated), [set(claims)], which stages new claims, and [save()],
    which persists the staged claims. A session is scoped to one
    thumbprint. *)
Record Session := mkSession { session_thumbprint : string }.

(** Modelled from the spec: opening the session of this browser for
    [thumbprint]; its [user] is what was persisted before. *)
Definition sessionStore (w : Collaborators) (raw : IncomingMessage) (thumbprint : string)
    : M Session :=
  emit (OpenSession thumbprint) ;;
  (fun st => (Returned (mkSession thumbprint),
              mkState (trace st) (in_flight st) (statusCode st) (reply_headers st)
                      (stored_user w raw thumbprint))).

(** Modelled from the spec: [session.user]. *)
Definition session_user (s : Session) : M (option Claims) :=
  fun st => (Returned (session_claims st), st).

(** Modelled from the spec: [session.set(claims)] stages the claims. *)
Definition session_set (s : Session) (claims : Claims) : M unit :=
  emit (SessionSet claims) ;;
  (fun st => (Returned tt,
              mkState (trace st) (in_flight st) (statusCode st) (reply_headers st)
                      (Some claims))).

(** Modelled from the spec: [session.save()] persists the staged claims;
    the session is durable once the save has completed. *)
Definition session_save (w : Collaborators) (s : Session) : M unit :=
  emit SessionSave ;;
  staged <- session_user s ;;
  complete_after (save_turns w) (SessionDurable (session_thumbprint s) staged).

(** *** url.js *)

Record UrlEdit := mkEdit {
  edit_hostname : option string;
  edit_queryParams : option (list (string * string));
  edit_path : option string
}.

(** Modelled from the spec: url.js is not among the sources. The spec has
    [editUrl] rebuild a URL with the given hostname, the given query
    parameters and the given path; what is not given is kept. *)
Definition editUrl (url : URL) (e : UrlEdit) : URL :=
  mkURL (protocol url) (username url) (password url)
        (match edit_hostname e with Some h => h | None => hostname url end)
        (port url)
        (match edit_path e with
         | Some p => path_state [] (path_start p)
         | None => path url
         end)
        (match edit_queryParams e with
         | Some ps => Some (urlencoded ps)
         | None => query url
         end)
        (fragment url).

(** app.ts, lines 12-23. [...returnPath ? { returnPath } : {}] adds the
    parameter when [returnPath] is a non-empty string. *)
Definition loginUrl (baseUrl : URL) (env : string) (returnPath : option string) : URL :=
  editUrl baseUrl
    (mkEdit (Some ("auth." ++ hostname baseUrl))
            (Some (("env", env)
                   :: match returnPath with
                      | Some p => if truthy (Some p) then [("returnPath", p)] else []
                      | None => []
                      end))
            (Some "/login")).

Definition buildLoginUrl (baseUrl : URL) (env : string) (returnPath : option string)
    : string :=
  URL_toString (loginUrl baseUrl env returnPath).

(** ** The Fastify handlers *)

Record ProfileRequest := mkProfileRequest {
  profile_raw : IncomingMessage;
  params_profileId : string
}.

Record LoginRequest := mkLoginRequest {
  login_raw : IncomingMessage;
  query_env : string;
  query_returnPath : option string
}.

(** [const { env: envId, returnPath = '/' } = req.query] *)
Definition returnPath_of (req : LoginRequest) : string :=
  match query_returnPath req with Some p => p | None => "/" end.

Definition error_body (message : string) : payload :=
  PJson (JObject [("error", JString message)]).

(** The projection of a tunnel the discovery endpoint sends. *)
Definition tunnel_view (t : ActiveTunnel.t) : json :=
  JObject [("envId", JString (ActiveTunnel.envId t));
           ("hostname", JString (ActiveTunnel.hostname t));
           ("access", ActiveTunnel.access t);
           ("meta", ActiveTunnel.meta t)].

(** app.ts, lines 76-96: [GET /profiles/:profileId/tunnels]. *)
Definition profile_tunnels (w : Collaborators) (req : ProfileRequest) : M Response :=
  let profileId := params_profileId req in
  tunnels <- await (getByPkThumbprint w profileId) ;;
  match tunnels with
  | None | Some [] => send (PJson (JArray []))
  | Some ((first :: _) as found) =>
      auth <- authFactory w first ;;
      result <- await (call_auth auth (profile_raw req)) ;;
      if negb (isAuthenticated result) then
        set_statusCode 401 ;;
        await (send (PText "Unauthenticated"))
      else
        await (send (PJson (JArray (map tunnel_view found))))
  end.

(** app.ts, line 98: [GET /healthz]. *)
Definition healthz : M Response := send (PText "OK").

Section Login.

Variable parse_host : string -> option string.

(** [new URL(input, base)] inside a handler: an invalid URL throws. *)
Definition new_URL (input : string) (base : URL) : M URL :=
  match URL_new parse_host input (Some base) with
  | Some u => ret u
  | None => throw "TypeError: Invalid URL"
  end.

(** The URL of the tenant's tunnel:
    [editUrl(baseUrl, { hostname: `${envId}.${baseUrl.hostname}` })]. *)
Definition tenantUrl (baseUrl : URL) (envId : string) : URL :=
  editUrl baseUrl (mkEdit (Some (envId ++ "." ++ hostname baseUrl)) None None).

(** app.ts, line 130: where an unauthenticated browser is sent. *)
Definition saasLoginUrl (saas : string) (baseUrl : URL) (envId returnPath : string)
    : string :=
  saas ++ "/api/auth/login?redirectTo="
  ++ encodeURIComponent (buildLoginUrl baseUrl envId (Some returnPath)).

(** app.ts, lines 111-139: [GET /login]. *)
Definition login (cfg : AppConfig) (w : Collaborators) (req : LoginRequest) : M Response :=
  let envId := query_env req in
  let returnPath := returnPath_of req in
  if negb (startsWith returnPath "/") then
    set_statusCode 400 ;;
    send (error_body "returnPath must be a relative path")
  else
    activeTunnelEntry <- await (get_tunnel w envId) ;;
    match activeTunnelEntry with
    | None =>
        set_statusCode 404 ;;
        send (error_body "unknown envId")
    | Some activeTunnel =>
        let to_tenant : M Response :=
          target <- new_URL returnPath (tenantUrl (baseUrl cfg) envId) ;;
          await (redirect (URL_toString target)) in
        session <- sessionStore w (login_raw req)
                     (ActiveTunnel.publicKeyThumbprint activeTunnel) ;;
        user <- session_user session ;;
        match user with
        | Some _ => to_tenant
        | None =>
            auth <- authFactory w activeTunnel ;;
            result <- await (call_auth auth (login_raw req)) ;;
            match result with
            | Unauthenticated =>
                let unauthorized : M Response :=
                  set_statusCode 401 ;;
                  send (error_body "Unauthorized") in
                match saasBaseUrl cfg with
                | Some saas =>
                    if truthy (Some saas) then
                      header "Access-Control-Allow-Origin" saas ;;
                      await (redirect (saasLoginUrl saas (baseUrl cfg) envId returnPath))
                    else unauthorized
                | None => unauthorized
                end
            | Authenticated claims =>
                session_set session claims ;;
                session_save w session ;;
                to_tenant
            end
        end
    end.

End Login.

(** ** Reading a trace *)

Definition is_registry_call (e : event) : bool :=
  match e with GetTunnel _ | GetByPkThumbprint _ => true | _ => false end.

Definition is_auth_call (e : event) : bool :=
  match e with AuthFactory _ | Authenticate _ => true | _ => false end.

Definition is_session_open (e : event) : bool :=
  match e with OpenSession _ => true | _ => false end.

Definition is_session_write (e : event) : bool :=
  match e with SessionSet _ | SessionSave | SessionDurable _ _ => true | _ => false end.

(** The session is durable by the time the (first) reply is issued. *)
Fixpoint durable_before_reply (t : list event) : bool :=
  match t with
  | [] => false
  | SessionDurable _ _ :: _ => true
  | Reply _ :: _ => false
  | _ :: rest => durable_before_reply rest
  end.

Definition header_value (name : string) (r : Response) : option string :=
  option_map snd (find (fun h => String.eqb (fst h) name) (headers r)).

Definition location (r : Response) : option string := header_value "location" r.

(** ** The replies of [/login] and of the discovery endpoint *)

Definition bad_returnPath_reply : Response :=
  mkResponse 400 [] (error_body "returnPath must be a relative path").

Definition unknown_env_reply : Response :=
  mkResponse 404 [] (error_body "unknown envId").

Definition unauthorized_reply : Response :=
  mkResponse 401 [] (error_body "Unauthorized").

Definition redirect_reply (set_before : list (string * string)) (url : string) : Response :=
  mkResponse 302 (set_before ++ [("location", url)]) PEmpty.

(** The events of a run and its result. *)
Definition events {A : Type} (m : M A) : list event := trace (snd (run m)).
Definition result {A : Type} (m : M A) : outcome A := fst (run m).

(** ** The spec's sentences that the code does not bear out, as written *)


(** "The response is a redirect whose target is the provider's login
    endpoint carrying the gateway's own login URL; the response also
    carries an Access-Control-Allow-Origin header equal to the identity
    provider's origin." *)
Definition idp_redirect_allows_idp_origin : Prop :=
  forall parse_host cfg w req tunnel saas idp,
    startsWith (returnPath_of req) "/" = true ->
    activeTunnelStore_get w (query_env req) = Some tunnel ->
    stored_user w (login_raw req) (ActiveTunnel.publicKeyThumbprint tunnel) = None ->
    authFactory_result w tunnel (login_raw req) = Unauthenticated ->
    saasBaseUrl cfg = Some saas ->
    saas <> EmptyString ->
    URL_new parse_host saas None = Some idp ->
    exists r,
      result (login parse_host cfg w req) = Returned r
      /\ location r
         = Some (saasLoginUrl saas (baseUrl cfg) (query_env req) (returnPath_of req))
      /\ header_value "Access-Control-Allow-Origin" r = Some (origin idp).

(** "For every login request whose env does not resolve to an active
    tunnel in the registry, the response is 404 with body
    [{error: 'unknown envId'}], and no authenticator is constructed and no
    session is opened." *)
Definition unknown_env_is_404 : Prop :=
  forall parse_host cfg w req,
    activeTunnelStore_get w (query_env req) = None ->
    result (login parse_host cfg w req) = Returned unknown_env_reply
    /\ existsb is_auth_call (events (login parse_host cfg w req)) = false
    /\ existsb is_session_open (events (login parse_host cfg w req)) = false.

(** "For every login request with a known env whose session already
    carries authenticated claims, no authenticator is constructed and no
    session write occurs, and the response is a redirect directly to
    returnPath resolved against [<env>.<base>]." *)
Definition session_holder_is_redirected : Prop :=
  forall parse_host cfg w req tunnel c,
    activeTunnelStore_get w (query_env req) = Some tunnel ->
    stored_user w (login_raw req) (ActiveTunnel.publicKeyThumbprint tunnel) = Some c ->
    (exists u,
        URL_new parse_host (returnPath_of req)
                (Some (tenantUrl (baseUrl cfg) (query_env req))) = Some u
        /\ result (login parse_host cfg w req)
           = Returned (redirect_reply [] (URL_toString u)))
    /\ existsb is_auth_call (events (login parse_host cfg w req)) = false
    /\ existsb is_session_write (events (login parse_host cfg w req)) = false.

(** "A Host header that differs from auth.<base> or api.<base> only in
    letter case classifies as tunnel-traffic and is offered to the proxy
    rather than handled by the control plane." *)
Definition case_variant_bypasses_control_plane : Prop :=
  forall base proxy req h,
    headers_host req = Some h ->
    (lower (strip_port h) = lower ("auth." ++ base) /\ strip_port h <> "auth." ++ base)
    \/ (lower (strip_port h) = lower ("api." ++ base) /\ strip_port h <> "api." ++ base) ->
    classify base req = TunnelTraffic
    /\ In (RouteRequest req) (on_request base proxy req)
    /\ existsb (fun e => match e with FastifyServes _ => true | _ => false end)
               (on_request base proxy req) = false.

(** ** A gateway at example.com, to run the handlers on *)

Definition example_base : URL :=
  mkURL Https EmptyString EmptyString "example.com" None [EmptyString] None None.

Definition example_tunnel : ActiveTunnel.t :=
  ActiveTunnel.mk "my-env" "my-env.example.com" "public-key" "thumb" JNull JNull.

Definition example_raw : IncomingMessage :=
  mkReq "GET" "/login" (Some "auth.example.com").

(** One tunnel, [my-env]; the browser's session holds [user]; the
    authenticator answers [answer]; [save()] needs [turns] turns. *)
Definition example_world (user : option Claims) (answer : AuthResult) (turns : nat)
    : Collaborators :=
  mkCollaborators
    (fun env => if String.eqb env "my-env" then Some example_tunnel else None)
    (fun thumbprint => if String.eqb thumbprint "thumb" then Some [example_tunnel] else Some [])
    (fun _ _ => user)
    (fun _ _ => answer)
    turns.

Definition example_cfg (saas : option string) : AppConfig := mkConfig example_base saas.

Definition example_login (env : string) (returnPath : option string) : LoginRequest :=
  mkLoginRequest example_raw env returnPath.

(** ** Further readings of what the server and the handlers did *)

Definition is_route_request (e : effect) : bool :=
  match e with RouteRequest _ => true | _ => false end.

(** A handler was given the request: the proxy's or Fastify's. *)
Definition is_serve (e : effect) : bool :=
  match e with
  | ProxyServes _ _ | ProxyUpgrades _ _ | FastifyServes _ => true
  | _ => false
  end.

Definition is_log_debug (e : effect) : bool :=
  match e with LogDebug _ => true | _ => false end.

Definition is_log_warn (e : effect) : bool :=
  match e with LogWarn _ => true | _ => false end.

(** The same request with another Host header. *)
Definition with_host (req : IncomingMessage) (h : option string) : IncomingMessage :=
  mkReq (req_method req) (req_url req) h.

Fixpoint has_colon (s : string) : bool :=
  match s with
  | EmptyString => false
  | String c rest => Ascii.eqb c ":" || has_colon rest
  end.

(** The byte [c] occurs in [s]. *)
Definition occurs (c : ascii) (s : string) : bool :=
  existsb (Ascii.eqb c) (list_ascii_of_string s).

(** No byte of [s] is a C0 control or a space. *)
Definition no_blank (s : string) : bool :=
  forallb (fun c => negb (in_range 0 32 c)) (list_ascii_of_string s).

(** The keys of a JSON object. *)
Definition json_keys (j : json) : list string :=
  match j with
  | JObject fields => map fst fields
  | _ => []
  end.

Definition is_reply (e : event) : bool :=
  match e with Reply _ => true | _ => false end.





(** A host name as it can stand after two slashes without more ado: not
    empty, and free of control characters, spaces and the delimiters
    [/ \ ? # @ :]. *)
Definition plain_host_char (c : ascii) : bool :=
  negb (code_in [47; 92; 63; 35; 64; 58] c) && negb (in_range 0 32 c).

Definition plain_host (h : string) : bool :=
  negb (String.eqb h EmptyString) && forallb plain_host_char (list_ascii_of_string h).

(** Destructs what the goal's matches are stuck on, outermost first. *)
Ltac split_cases :=
  repeat match goal with
         | |- context [match ?x with _ => _ end] =>
             lazymatch x with
             | context [match _ with _ => _ end] => fail
             | _ => destruct x eqn:?
             end
         end.

(** ** Proof automation: unfolding the handlers' primitives *)

Ltac run_handler :=
  cbv [run events result login profile_tunnels healthz bind ret await turn emit send
       redirect header set_statusCode get_tunnel getByPkThumbprint sessionStore
       session_user session_set session_save authFactory call_auth complete_after
       new_URL throw initial trace in_flight statusCode reply_headers session_claims
       session_thumbprint fst snd].

(* ================================================================== *)
(** * Theorems *)
(* ================================================================== *)

(** ** The host classifier *)

Lemma split_head (s : string) :
  nth_error (split ":" s) 0 = Some (strip_port s).
Proof.
  induction s as [|c rest IH]; simpl; [reflexivity|].
  destruct (Ascii.eqb c ":"); [reflexivity|].
  destruct (split ":" rest) as [|piece pieces]; simpl in *.
  - discriminate.
  - now inversion IH.
Qed.

Lemma request_host_strip (req : IncomingMessage) :
  request_host req = option_map strip_port (headers_host req).
Proof.
  unfold request_host. destruct (headers_host req) as [h|]; simpl; [|reflexivity].
  apply split_head.
Qed.

Lemma strict_eq_true (x : option string) (y : string) :
  strict_eq x y = true <-> x = Some y.
Proof.
  destruct x as [s|]; simpl.
  - rewrite String.eqb_eq. split; [intros -> | intros [= ->]]; reflexivity.
  - split; discriminate.
Qed.

Lemma isNonProxyRequest_spec (base : string) (req : IncomingMessage) :
  isNonProxyRequest base req = true <->
  exists h, headers_host req = Some h /\
            (strip_port h = "auth." ++ base \/ strip_port h = "api." ++ base).
Proof.
  unfold isNonProxyRequest. rewrite orb_true_iff, !strict_eq_true, request_host_strip.
  unfold authHostname, apiHostname.
  destruct (headers_host req) as [h|]; simpl.
  - split.
    + intros [[= E] | [= E]]; exists h; auto.
    + intros (h' & [= <-] & [E | E]); rewrite E; auto.
  - split; [intros [E | E]; discriminate | intros (h' & E & _); discriminate].
Qed.

Lemma classify_cases (base : string) (req : IncomingMessage) :
  classify base req = (if isNonProxyRequest base req then ControlPlane else TunnelTraffic).
Proof. reflexivity. Qed.

(** C3: the classifier answers control-plane exactly when the Host header,
    cut at its port suffix, is [auth.<base>] or [api.<base>]; every other
    header value and a missing header are tunnel traffic; the classifier is
    a total function, so it has an answer (and raises nothing) on every
    request. *)
Theorem classify_control_plane_iff (base : string) (req : IncomingMessage) :
  (classify base req = ControlPlane <->
     exists h, headers_host req = Some h /\
               (strip_port h = "auth." ++ base \/ strip_port h = "api." ++ base))
  /\ (classify base req = TunnelTraffic <->
     ~ exists h, headers_host req = Some h /\
                 (strip_port h = "auth." ++ base \/ strip_port h = "api." ++ base))
  /\ (headers_host req = None -> classify base req = TunnelTraffic).
Proof.
  pose proof (isNonProxyRequest_spec base req) as Hspec.
  rewrite classify_cases.
  destruct (isNonProxyRequest base req) eqn:E.
  - assert (Hex := proj1 Hspec eq_refl).
    split; [|split].
    + split; [intros _; exact Hex | reflexivity].
    + split; [discriminate | intros Hno; now destruct Hno].
    + intros Hnone. destruct Hex as (h & Hh & _). congruence.
  - assert (Hno : ~ exists h, headers_host req = Some h /\
               (strip_port h = "auth." ++ base \/ strip_port h = "api." ++ base)).
    { intros Hex. apply Hspec in Hex. discriminate. }
    split; [|split].
    + split; [discriminate | intros Hex; now destruct Hno].
    + split; [intros _; exact Hno | reflexivity].
    + reflexivity.
Qed.

Lemma classify_control_plane_iff_witness :
  classify "example.com" (mkReq "GET" "/login" (Some "auth.example.com:8443")) = ControlPlane
  /\ classify "example.com" (mkReq "GET" "/" (Some "my-env.example.com:8443")) = TunnelTraffic
  /\ classify "example.com" (mkReq "GET" "/" None) = TunnelTraffic.
Proof.
  split; [|split].
  - apply (proj1 (classify_control_plane_iff "example.com" _)).
    exists "auth.example.com:8443". split; [reflexivity | left; reflexivity].
  - apply (proj1 (proj2 (classify_control_plane_iff "example.com" _))).
    intros (h & [= <-] & [E | E]); vm_compute in E; discriminate.
  - apply (proj2 (proj2 (classify_control_plane_iff "example.com" _))). reflexivity.
Defined.

(** ** Case sensitivity *)

Lemma lower_auth_api (base s : string) :
  lower s = lower ("auth." ++ base) -> s <> "api." ++ base.
Proof.
  intros E ->. simpl in E. discriminate.
Qed.

Lemma lower_api_auth (base s : string) :
  lower s = lower ("api." ++ base) -> s <> "auth." ++ base.
Proof.
  intros E ->. simpl in E. discriminate.
Qed.

(** C10, what the code does: the comparison is exact. A Host header whose
    host part is [auth.<base>] or [api.<base>] is control-plane: the proxy
    is not asked and Fastify serves the request. A Host header whose host
    part differs from one of them only in letter case is tunnel traffic:
    the request is offered to the proxy first ([routeRequest] is called,
    and [routeUpgrade] for an upgrade); the proxy's handler serves it when
    the proxy claims it, and it falls through to the control-plane handler
    of Fastify when the proxy declines. *)
Theorem classify_case_sensitive (base : string) (proxy : Proxy)
    (req : IncomingMessage) (h : string) :
  headers_host req = Some h ->
  (lower (strip_port h) = lower ("auth." ++ base) /\ strip_port h <> "auth." ++ base)
  \/ (lower (strip_port h) = lower ("api." ++ base) /\ strip_port h <> "api." ++ base) ->
  classify base req = TunnelTraffic
  /\ on_request base proxy req
     = ((if negb (String.eqb (req_url req) "/healthz")
         then [LogDebug "request %j"] else [])
        ++ [RouteRequest req;
            match routeRequest proxy req with
            | Some ph => ProxyServes ph req
            | None => FastifyServes req
            end])%list
  /\ In (RouteUpgrade req) (on_upgrade base proxy req)
  /\ (forall exact,
        strip_port exact = "auth." ++ base \/ strip_port exact = "api." ++ base ->
        classify base (with_host req (Some exact)) = ControlPlane
        /\ existsb is_route_request
             (on_request base proxy (with_host req (Some exact))) = false
        /\ filter is_serve (on_request base proxy (with_host req (Some exact)))
           = [FastifyServes (with_host req (Some exact))]).
Proof.
  intros Hh Hcase.
  assert (Hnon : isNonProxyRequest base req = false).
  { destruct (isNonProxyRequest base req) eqn:E; [|reflexivity].
    apply isNonProxyRequest_spec in E. destruct E as (h' & Hh' & E).
    rewrite Hh in Hh'. injection Hh' as <-.
    destruct Hcase as [[Hl Hne] | [Hl Hne]], E as [E | E]; try contradiction.
    - now apply lower_auth_api in Hl.
    - now apply lower_api_auth in Hl. }
  rewrite classify_cases, Hnon. split; [reflexivity|].
  split; [|split].
  - unfold on_request, offer. rewrite Hnon. cbn [negb].
    destruct (routeRequest proxy req); reflexivity.
  - unfold on_upgrade, offer. rewrite Hnon. right. left. reflexivity.
  - intros exact Hexact.
    assert (Hyes : isNonProxyRequest base (with_host req (Some exact)) = true).
    { apply isNonProxyRequest_spec. exists exact. split; [reflexivity | exact Hexact]. }
    rewrite classify_cases. unfold on_request, offer. rewrite Hyes. cbn [negb].
    destruct (negb (req_url (with_host req (Some exact)) =? "/healthz"));
      repeat split; reflexivity.
Qed.

Lemma classify_case_sensitive_witness :
  classify "example.com" (mkReq "GET" "/login" (Some "AUTH.example.com")) = TunnelTraffic
  /\ on_request "example.com" (mkProxy (fun _ => Some (ProxyHandlerRef 0)) (fun _ => None))
       (mkReq "GET" "/login" (Some "AUTH.example.com"))
     = [LogDebug "request %j"; RouteRequest (mkReq "GET" "/login" (Some "AUTH.example.com"));
        ProxyServes (ProxyHandlerRef 0) (mkReq "GET" "/login" (Some "AUTH.example.com"))]
  /\ classify "example.com" (mkReq "GET" "/login" (Some "auth.example.com")) = ControlPlane.
Proof.
  destruct (classify_case_sensitive "example.com"
              (mkProxy (fun _ => Some (ProxyHandlerRef 0)) (fun _ => None))
              (mkReq "GET" "/login" (Some "AUTH.example.com")) "AUTH.example.com")
    as (Hclass & Hrun & _ & Hexact).
  - reflexivity.
  - left. split; [reflexivity | discriminate].
  - split; [exact Hclass | split; [exact Hrun |]].
    apply (Hexact "auth.example.com"). left. reflexivity.
Defined.

(** C10 as the spec states it fails: a request with Host
    [AUTH.example.com] that the proxy declines is tunnel traffic and is
    offered to the proxy, and then it is served by Fastify, the
    control-plane handler. *)
Lemma case_variant_falls_through_to_fastify :
  classify "example.com" (mkReq "GET" "/login" (Some "AUTH.example.com")) = TunnelTraffic
  /\ on_request "example.com" (mkProxy (fun _ => None) (fun _ => None))
       (mkReq "GET" "/login" (Some "AUTH.example.com"))
     = [LogDebug "request %j"; RouteRequest (mkReq "GET" "/login" (Some "AUTH.example.com"));
        FastifyServes (mkReq "GET" "/login" (Some "AUTH.example.com"))]
  /\ ~ case_variant_bypasses_control_plane.
Proof.
  split; [vm_compute; reflexivity | split; [vm_compute; reflexivity |]].
  intros Hclaim.
  destruct (Hclaim "example.com" (mkProxy (fun _ => None) (fun _ => None))
              (mkReq "GET" "/login" (Some "AUTH.example.com")) "AUTH.example.com")
    as (_ & _ & H).
  - reflexivity.
  - left. split; [reflexivity | discriminate].
  - vm_compute in H. discriminate H.
Qed.

(** ** The upgrade path *)

(** C5: on an upgrade request to a control-plane host [proxy.routeUpgrade]
    is not called; and whenever the proxy does not claim the upgrade (it is
    not asked, or it declines) the server writes exactly [Not found] to the
    raw socket and closes it as its last action: what it wrote does not
    begin like an HTTP status line, and the request is not passed to the
    HTTP handler chain. *)
Theorem upgrade_declined (base : string) (proxy : Proxy) (req : IncomingMessage) :
  (classify base req = ControlPlane ->
     existsb is_route_upgrade (on_upgrade base proxy req) = false)
  /\ (classify base req = ControlPlane \/ routeUpgrade proxy req = None ->
        socket_written (on_upgrade base proxy req) = "Not found"
        /\ socket_closed (on_upgrade base proxy req) = true
        /\ last (on_upgrade base proxy req) (LogDebug EmptyString) = SocketEnd "Not found"
        /\ startsWith (socket_written (on_upgrade base proxy req)) "HTTP/" = false
        /\ existsb is_fastify (on_upgrade base proxy req) = false).
Proof.
  rewrite classify_cases. unfold on_upgrade, offer.
  split.
  - destruct (isNonProxyRequest base req); [reflexivity | discriminate].
  - intros Hnone. destruct (isNonProxyRequest base req); simpl.
    + repeat split; reflexivity.
    + destruct Hnone as [Hnone | Hnone]; [discriminate|].
      rewrite Hnone. repeat split; reflexivity.
Qed.

Lemma upgrade_declined_witness :
  let proxy := mkProxy (fun _ => None) (fun _ => None) in
  existsb is_route_upgrade
    (on_upgrade "example.com" proxy (mkReq "GET" "/ws" (Some "api.example.com"))) = false
  /\ socket_written
       (on_upgrade "example.com" proxy (mkReq "GET" "/ws" (Some "gone.example.com")))
     = "Not found".
Proof.
  intros proxy. split.
  - apply (proj1 (upgrade_declined "example.com" proxy _)). reflexivity.
  - apply (proj2 (upgrade_declined "example.com" proxy _)). right. reflexivity.
Defined.

(** ** Running [/login] branch by branch *)

Section LoginRuns.

Variable parse_host : string -> option string.
Variable cfg : AppConfig.
Variable w : Collaborators.
Variable req : LoginRequest.

Lemma login_bad_returnPath_run :
  startsWith (returnPath_of req) "/" = false ->
  run (login parse_host cfg w req)
  = (Returned bad_returnPath_reply, mkState [Reply bad_returnPath_reply] [] 400 [] None).
Proof.
  intros Hbad. unfold run, login. rewrite Hbad. reflexivity.
Qed.

Lemma login_unknown_env_run :
  startsWith (returnPath_of req) "/" = true ->
  activeTunnelStore_get w (query_env req) = None ->
  run (login parse_host cfg w req)
  = (Returned unknown_env_reply,
     mkState [GetTunnel (query_env req); Reply unknown_env_reply] [] 404 [] None).
Proof.
  intros Hok Hnone. unfold run, login. rewrite Hok.
  run_handler. rewrite Hnone. reflexivity.
Qed.

Section KnownEnv.

Variable tunnel : ActiveTunnel.t.
Hypothesis Hpath : startsWith (returnPath_of req) "/" = true.
Hypothesis Htunnel : activeTunnelStore_get w (query_env req) = Some tunnel.

Lemma login_session_run (c : Claims) (u : URL) :
  stored_user w (login_raw req) (ActiveTunnel.publicKeyThumbprint tunnel) = Some c ->
  URL_new parse_host (returnPath_of req)
          (Some (tenantUrl (baseUrl cfg) (query_env req))) = Some u ->
  run (login parse_host cfg w req)
  = (Returned (redirect_reply [] (URL_toString u)),
     mkState [GetTunnel (query_env req);
              OpenSession (ActiveTunnel.publicKeyThumbprint tunnel);
              Reply (redirect_reply [] (URL_toString u))]
             [] 302 [("location", URL_toString u)] (Some c)).
Proof.
  intros Huser Hurl. unfold run, login. rewrite Hpath.
  run_handler. rewrite Htunnel, Huser, Hurl. reflexivity.
Qed.

Lemma login_session_throws (c : Claims) :
  stored_user w (login_raw req) (ActiveTunnel.publicKeyThumbprint tunnel) = Some c ->
  URL_new parse_host (returnPath_of req)
          (Some (tenantUrl (baseUrl cfg) (query_env req))) = None ->
  run (login parse_host cfg w req)
  = (Threw "TypeError: Invalid URL",
     mkState [GetTunnel (query_env req);
              OpenSession (ActiveTunnel.publicKeyThumbprint tunnel)]
             [] 200 [] (Some c)).
Proof.
  intros Huser Hurl. unfold run, login. rewrite Hpath.
  run_handler. rewrite Htunnel, Huser, Hurl. reflexivity.
Qed.

Lemma login_authenticated_run (c : Claims) (u : URL) :
  stored_user w (login_raw req) (ActiveTunnel.publicKeyThumbprint tunnel) = None ->
  authFactory_result w tunnel (login_raw req) = Authenticated c ->
  URL_new parse_host (returnPath_of req)
          (Some (tenantUrl (baseUrl cfg) (query_env req))) = Some u ->
  let reply := redirect_reply [] (URL_toString u) in
  let durable := SessionDurable (ActiveTunnel.publicKeyThumbprint tunnel) (Some c) in
  run (login parse_host cfg w req)
  = (Returned reply,
     mkState ([GetTunnel (query_env req);
               OpenSession (ActiveTunnel.publicKeyThumbprint tunnel);
               AuthFactory tunnel; Authenticate (login_raw req);
               SessionSet c; SessionSave]
              ++ match save_turns w with O => [durable] | S _ => [] end
              ++ [Reply reply]
              ++ match save_turns w with 1 => [durable] | _ => [] end)%list
             match save_turns w with
             | S (S n) => [(S n, durable)]
             | _ => []
             end
             302 [("location", URL_toString u)] (Some c)).
Proof.
  intros Huser Hauth Hurl. unfold run, login. rewrite Hpath.
  run_handler. rewrite Htunnel, Huser, Hauth, Hurl.
  destruct (save_turns w) as [|[|n]]; reflexivity.
Qed.

Lemma login_idp_run (saas : string) :
  stored_user w (login_raw req) (ActiveTunnel.publicKeyThumbprint tunnel) = None ->
  authFactory_result w tunnel (login_raw req) = Unauthenticated ->
  saasBaseUrl cfg = Some saas ->
  saas <> EmptyString ->
  let target := saasLoginUrl saas (baseUrl cfg) (query_env req) (returnPath_of req) in
  let reply := redirect_reply [("Access-Control-Allow-Origin", saas)] target in
  run (login parse_host cfg w req)
  = (Returned reply,
     mkState [GetTunnel (query_env req);
              OpenSession (ActiveTunnel.publicKeyThumbprint tunnel);
              AuthFactory tunnel; Authenticate (login_raw req); Reply reply]
             [] 302 [("Access-Control-Allow-Origin", saas); ("location", target)] None).
Proof.
  intros Huser Hauth Hsaas Hne. unfold run, login. rewrite Hpath.
  run_handler. rewrite Htunnel, Huser, Hauth, Hsaas.
  unfold truthy. apply String.eqb_neq in Hne. rewrite Hne. reflexivity.
Qed.

Lemma login_unauthorized_run :
  stored_user w (login_raw req) (ActiveTunnel.publicKeyThumbprint tunnel) = None ->
  authFactory_result w tunnel (login_raw req) = Unauthenticated ->
  truthy (saasBaseUrl cfg) = false ->
  run (login parse_host cfg w req)
  = (Returned unauthorized_reply,
     mkState [GetTunnel (query_env req);
              OpenSession (ActiveTunnel.publicKeyThumbprint tunnel);
              AuthFactory tunnel; Authenticate (login_raw req);
              Reply unauthorized_reply]
             [] 401 [] None).
Proof.
  intros Huser Hauth Hsaas. unfold run, login. rewrite Hpath.
  run_handler. rewrite Htunnel, Huser, Hauth.
  destruct (saasBaseUrl cfg) as [saas|]; [|reflexivity].
  rewrite Hsaas. reflexivity.
Qed.

End KnownEnv.

End LoginRuns.

(** ** Rejected return paths *)

(** C9: a login request whose [returnPath] does not start with a slash is
    answered 400 with [{error: 'returnPath must be a relative path'}],
    whatever the registry holds for [env]; the reply is the only thing the
    handler does, so the check comes before any registry lookup. *)
Theorem login_returnPath_rejected (parse_host : string -> option string)
    (cfg : AppConfig) (w : Collaborators) (req : LoginRequest) (rp : string) :
  query_returnPath req = Some rp ->
  startsWith rp "/" = false ->
  result (login parse_host cfg w req)
  = Returned (mkResponse 400 [] (error_body "returnPath must be a relative path"))
  /\ events (login parse_host cfg w req)
     = [Reply (mkResponse 400 [] (error_body "returnPath must be a relative path"))]
  /\ existsb is_registry_call (events (login parse_host cfg w req)) = false.
Proof.
  intros Hrp Hbad.
  assert (Hrun := login_bad_returnPath_run parse_host cfg w req).
  unfold returnPath_of in Hrun. rewrite Hrp in Hrun. specialize (Hrun Hbad).
  unfold result, events. rewrite Hrun. repeat split.
Qed.

Lemma login_returnPath_rejected_witness :
  result (login domain_host (example_cfg None)
            (example_world None Unauthenticated 0)
            (example_login "my-env" (Some "https://evil.example/")))
  = Returned (mkResponse 400 [] (error_body "returnPath must be a relative path"))
  /\ result (login domain_host (example_cfg None)
            (example_world None Unauthenticated 0)
            (example_login "no-such-env" (Some "")))
  = Returned (mkResponse 400 [] (error_body "returnPath must be a relative path")).
Proof.
  split.
  - apply (login_returnPath_rejected domain_host (example_cfg None)
             (example_world None Unauthenticated 0)
             (example_login "my-env" (Some "https://evil.example/"))
             "https://evil.example/"); reflexivity.
  - apply (login_returnPath_rejected domain_host (example_cfg None)
             (example_world None Unauthenticated 0)
             (example_login "no-such-env" (Some EmptyString))
             EmptyString); reflexivity.
Defined.

(** ** Unknown environments *)

(** C6, what the code does: when [env] does not resolve to an active
    tunnel, no authenticator is constructed and no session is opened; the
    reply is 404 with [{error: 'unknown envId'}] when [returnPath] is absent
    or starts with a slash, after one registry lookup, and it is the 400 of
    the returnPath check otherwise. *)
Theorem login_unknown_env (parse_host : string -> option string)
    (cfg : AppConfig) (w : Collaborators) (req : LoginRequest) :
  activeTunnelStore_get w (query_env req) = None ->
  existsb is_auth_call (events (login parse_host cfg w req)) = false
  /\ existsb is_session_open (events (login parse_host cfg w req)) = false
  /\ (startsWith (returnPath_of req) "/" = true ->
      result (login parse_host cfg w req)
      = Returned (mkResponse 404 [] (error_body "unknown envId"))
      /\ events (login parse_host cfg w req)
         = [GetTunnel (query_env req);
            Reply (mkResponse 404 [] (error_body "unknown envId"))])
  /\ (startsWith (returnPath_of req) "/" = false ->
      result (login parse_host cfg w req) = Returned bad_returnPath_reply).
Proof.
  intros Hnone. unfold result, events.
  destruct (startsWith (returnPath_of req) "/") eqn:Hpath.
  - rewrite (login_unknown_env_run parse_host cfg w req Hpath Hnone).
    repeat split; discriminate.
  - rewrite (login_bad_returnPath_run parse_host cfg w req Hpath).
    repeat split; discriminate.
Qed.

Lemma login_unknown_env_witness :
  result (login domain_host (example_cfg None) (example_world None Unauthenticated 0)
            (example_login "no-such-env" None))
  = Returned (mkResponse 404 [] (error_body "unknown envId")).
Proof.
  apply (login_unknown_env domain_host (example_cfg None)
           (example_world None Unauthenticated 0) (example_login "no-such-env" None));
    reflexivity.
Defined.

(** C6 as the spec states it fails: an unknown [env] with a [returnPath]
    that does not start with a slash is answered 400, not 404. *)
Lemma unknown_env_bad_returnPath_is_400 :
  activeTunnelStore_get (example_world None Unauthenticated 0) "no-such-env" = None
  /\ result (login domain_host (example_cfg None) (example_world None Unauthenticated 0)
               (example_login "no-such-env" (Some "dashboard")))
     = Returned (mkResponse 400 [] (error_body "returnPath must be a relative path"))
  /\ ~ unknown_env_is_404.
Proof.
  split; [reflexivity | split; [reflexivity |]].
  intros Hclaim.
  destruct (Hclaim domain_host (example_cfg None) (example_world None Unauthenticated 0)
              (example_login "no-such-env" (Some "dashboard")) eq_refl) as [H _].
  discriminate H.
Qed.

(** ** A session that already holds claims *)

(** C7, what the code does: for a login request whose [returnPath] is
    absent or starts with a slash, whose [env] is known and whose session
    already holds claims, no authenticator is constructed and the session
    is not written; when [returnPath] resolves as a URL against the
    tenant's URL, the reply is a redirect to the resolved URL, right after
    the registry lookup and the opening of the session. *)
Theorem login_with_session (parse_host : string -> option string)
    (cfg : AppConfig) (w : Collaborators) (req : LoginRequest)
    (tunnel : ActiveTunnel.t) (c : Claims) :
  startsWith (returnPath_of req) "/" = true ->
  activeTunnelStore_get w (query_env req) = Some tunnel ->
  stored_user w (login_raw req) (ActiveTunnel.publicKeyThumbprint tunnel) = Some c ->
  existsb is_auth_call (events (login parse_host cfg w req)) = false
  /\ existsb is_session_write (events (login parse_host cfg w req)) = false
  /\ (forall u,
        URL_new parse_host (returnPath_of req)
                (Some (tenantUrl (baseUrl cfg) (query_env req))) = Some u ->
        result (login parse_host cfg w req)
        = Returned (mkResponse 302 [("location", URL_toString u)] PEmpty)
        /\ events (login parse_host cfg w req)
           = [GetTunnel (query_env req);
              OpenSession (ActiveTunnel.publicKeyThumbprint tunnel);
              Reply (mkResponse 302 [("location", URL_toString u)] PEmpty)]).
Proof.
  intros Hpath Htunnel Huser. unfold result, events.
  destruct (URL_new parse_host (returnPath_of req)
              (Some (tenantUrl (baseUrl cfg) (query_env req)))) as [u|] eqn:Hurl.
  - rewrite (login_session_run parse_host cfg w req tunnel Hpath Htunnel c u Huser Hurl).
    split; [reflexivity | split; [reflexivity |]].
    intros u' [= <-]. split; reflexivity.
  - rewrite (login_session_throws parse_host cfg w req tunnel Hpath Htunnel c Huser Hurl).
    split; [reflexivity | split; [reflexivity |]].
    intros u' Hu. discriminate Hu.
Qed.

Lemma login_with_session_witness :
  result (login domain_host (example_cfg None)
            (example_world (Some (JString "alice")) Unauthenticated 0)
            (example_login "my-env" (Some "/dashboard?tab=1")))
  = Returned (mkResponse 302 [("location", "https://my-env.example.com/dashboard?tab=1")]
                         PEmpty).
Proof.
  pose proof (login_with_session domain_host (example_cfg None)
                (example_world (Some (JString "alice")) Unauthenticated 0)
                (example_login "my-env" (Some "/dashboard?tab=1"))
                example_tunnel (JString "alice") eq_refl eq_refl eq_refl)
    as (_ & _ & Hredirect).
  exact (proj1 (Hredirect
                  (mkURL Https EmptyString EmptyString "my-env.example.com" None
                         ["dashboard"] (Some "tab=1") None)
                  eq_refl)).
Defined.

(** C7 as the spec states it fails: the [returnPath] made of two slashes
    passes the check but names an empty host, so [new URL] throws and no
    redirect is sent, although the env is known and the session holds
    claims; and a [returnPath] that does not start with a slash is
    answered 400. *)
Lemma session_holder_not_always_redirected :
  startsWith "//" "/" = true
  /\ result (login domain_host (example_cfg None)
               (example_world (Some (JString "alice")) Unauthenticated 0)
               (example_login "my-env" (Some "//")))
     = Threw "TypeError: Invalid URL"
  /\ result (login domain_host (example_cfg None)
               (example_world (Some (JString "alice")) Unauthenticated 0)
               (example_login "my-env" (Some "dashboard")))
     = Returned (mkResponse 400 [] (error_body "returnPath must be a relative path"))
  /\ ~ session_holder_is_redirected.
Proof.
  split; [reflexivity | split; [vm_compute; reflexivity | split; [vm_compute; reflexivity |]]].
  intros Hclaim.
  destruct (Hclaim domain_host (example_cfg None)
              (example_world (Some (JString "alice")) Unauthenticated 0)
              (example_login "my-env" (Some "//")) example_tunnel (JString "alice")
              eq_refl eq_refl) as [(u & Hu & _) _].
  vm_compute in Hu. discriminate Hu.
Qed.

(** ** Authentication, then the redirect *)

(** The order of the authenticated branch (lines 135-138): when the
    authenticator authenticates the
    request, the handler stages the claims ([session.set]), calls
    [session.save()] and then issues the redirect, in that order and with
    nothing in between but the completion of a save that persists inside
    the call; it does not await the save. So the session is durable before
    the redirect is issued exactly when [save()] persists before it
    returns; a save that settles later completes after the redirect, or is
    still in flight when the handler is done. *)
Theorem login_saves_then_redirects (parse_host : string -> option string)
    (cfg : AppConfig) (w : Collaborators) (req : LoginRequest)
    (tunnel : ActiveTunnel.t) (c : Claims) (u : URL) :
  startsWith (returnPath_of req) "/" = true ->
  activeTunnelStore_get w (query_env req) = Some tunnel ->
  stored_user w (login_raw req) (ActiveTunnel.publicKeyThumbprint tunnel) = None ->
  authFactory_result w tunnel (login_raw req) = Authenticated c ->
  URL_new parse_host (returnPath_of req)
          (Some (tenantUrl (baseUrl cfg) (query_env req))) = Some u ->
  let reply := mkResponse 302 [("location", URL_toString u)] PEmpty in
  let durable := SessionDurable (ActiveTunnel.publicKeyThumbprint tunnel) (Some c) in
  result (login parse_host cfg w req) = Returned reply
  /\ events (login parse_host cfg w req)
     = ([GetTunnel (query_env req);
         OpenSession (ActiveTunnel.publicKeyThumbprint tunnel);
         AuthFactory tunnel; Authenticate (login_raw req);
         SessionSet c; SessionSave]
        ++ match save_turns w with O => [durable] | S _ => [] end
        ++ [Reply reply]
        ++ match save_turns w with 1 => [durable] | _ => [] end)%list
  /\ in_flight (snd (run (login parse_host cfg w req)))
     = match save_turns w with S (S n) => [(S n, durable)] | _ => [] end
  /\ (durable_before_reply (events (login parse_host cfg w req)) = true
      <-> save_turns w = 0).
Proof.
  intros Hpath Htunnel Huser Hauth Hurl reply durable. unfold result, events.
  rewrite (login_authenticated_run parse_host cfg w req tunnel Hpath Htunnel c u
             Huser Hauth Hurl).
  cbn [fst snd trace in_flight].
  repeat split.
  - destruct (save_turns w) as [|n]; [reflexivity|]. simpl. discriminate.
  - intros ->. reflexivity.
Qed.

Lemma login_saves_then_redirects_witness :
  durable_before_reply
    (events (login domain_host (example_cfg None)
               (example_world None (Authenticated (JString "alice")) 0)
               (example_login "my-env" None))) = true.
Proof.
  pose proof (login_saves_then_redirects domain_host (example_cfg None)
                (example_world None (Authenticated (JString "alice")) 0)
                (example_login "my-env" None) example_tunnel (JString "alice")
                (mkURL Https EmptyString EmptyString "my-env.example.com" None
                       [EmptyString] None None)
                eq_refl eq_refl eq_refl eq_refl eq_refl)
    as (_ & _ & _ & Hdurable).
  apply Hdurable. reflexivity.
Defined.


(** ** Percent-encoding can be undone *)

Lemma hex_value_hex_digit (n : nat) :
  n < 16 -> hex_value (hex_digit n) = Some n.
Proof.
  intros Hn.
  do 16 (destruct n as [|n]; [reflexivity|]). lia.
Qed.

Lemma percent_decode_byte (c : ascii) (rest : string) :
  percent_decode (percent_byte c ++ rest) = String c (percent_decode rest).
Proof.
  unfold percent_byte. cbn [append percent_decode].
  change (Ascii.eqb "%" "%") with true. cbv iota.
  rewrite !hex_value_hex_digit.
  - f_equal. unfold code.
    rewrite <- (Nat.div_mod_eq (nat_of_ascii c) 16). apply ascii_nat_embedding.
  - apply Nat.mod_upper_bound. discriminate.
  - apply Nat.Div0.div_lt_upper_bound. unfold code.
    pose proof (nat_ascii_bounded c). lia.
Qed.

Lemma percent_decode_encode (enc : ascii -> bool) (s : string) :
  enc "%"%char = true ->
  percent_decode (percent_encode enc s) = s.
Proof.
  intros Hpercent. induction s as [|c rest IH]; [reflexivity|].
  cbn [percent_encode]. destruct (enc c) eqn:Hc.
  - rewrite percent_decode_byte, IH. reflexivity.
  - cbn [append percent_decode].
    destruct (Ascii.eqb c "%") eqn:E.
    + apply Ascii.eqb_eq in E. subst c. congruence.
    + rewrite IH. reflexivity.
Qed.

Lemma decode_encodeURIComponent (s : string) :
  percent_decode (encodeURIComponent s) = s.
Proof. apply percent_decode_encode. reflexivity. Qed.

Lemma plus_to_space_app (a b : string) :
  plus_to_space (a ++ b) = plus_to_space a ++ plus_to_space b.
Proof.
  induction a as [|c a IH]; simpl; [reflexivity|]. now rewrite IH.
Qed.

Lemma hex_digit_not_plus (n : nat) :
  n < 16 -> Ascii.eqb (hex_digit n) "+" = false.
Proof.
  intros Hn. do 16 (destruct n as [|n]; [reflexivity|]). lia.
Qed.

Lemma plus_to_space_percent_byte (c : ascii) :
  plus_to_space (percent_byte c) = percent_byte c.
Proof.
  unfold percent_byte. cbn [plus_to_space].
  change (Ascii.eqb "%" "+") with false. cbv iota.
  rewrite !hex_digit_not_plus; [reflexivity | |].
  - apply Nat.mod_upper_bound. discriminate.
  - apply Nat.Div0.div_lt_upper_bound. unfold code.
    pose proof (nat_ascii_bounded c). lia.
Qed.

Lemma form_unescaped_plain (c : ascii) :
  form_unescaped c = true -> Ascii.eqb c "+" = false /\ Ascii.eqb c "%" = false.
Proof.
  intros Hc. split.
  - destruct (Ascii.eqb c "+") eqn:E; [|reflexivity].
    apply Ascii.eqb_eq in E. subst c. discriminate Hc.
  - destruct (Ascii.eqb c "%") eqn:E; [|reflexivity].
    apply Ascii.eqb_eq in E. subst c. discriminate Hc.
Qed.

Lemma form_decode_encode (s : string) :
  form_decode (form_encode s) = s.
Proof.
  unfold form_decode. induction s as [|c rest IH]; [reflexivity|].
  cbn [form_encode]. rewrite plus_to_space_app.
  destruct (Ascii.eqb c " ") eqn:Hspace.
  - apply Ascii.eqb_eq in Hspace. subst c. cbn. now rewrite IH.
  - destruct (form_unescaped c) eqn:Hkeep.
    + destruct (form_unescaped_plain c Hkeep) as [Hplus Hpercent].
      cbn [plus_to_space append percent_decode]. rewrite Hplus, Hpercent, IH. reflexivity.
    + rewrite plus_to_space_percent_byte, percent_decode_byte, IH. reflexivity.
Qed.

(** ** The hand-off to the identity provider *)

Lemma startsWith_slash_truthy (p : string) :
  startsWith p "/" = true -> truthy (Some p) = true.
Proof. destruct p; [discriminate | reflexivity]. Qed.

Lemma login_path : path_state [] (path_start "/login") = ["login"].
Proof. vm_compute. reflexivity. Qed.

Lemma loginUrl_parts (base : URL) (env returnPath : string) :
  startsWith returnPath "/" = true ->
  loginUrl base env (Some returnPath)
  = mkURL (protocol base) (username base) (password base)
          ("auth." ++ hostname base) (port base) ["login"]
          (Some ("env=" ++ form_encode env ++ "&returnPath=" ++ form_encode returnPath))
          (fragment base).
Proof.
  intros Hpath. unfold loginUrl. rewrite (startsWith_slash_truthy _ Hpath).
  unfold editUrl. cbn [edit_hostname edit_path edit_queryParams].
  rewrite login_path. reflexivity.
Qed.

(** C4, what the code does: when the session holds no user, the
    authenticator answers unauthenticated and an identity-provider base URL
    is configured, the reply is a 302 to
    [<base URL>/api/auth/login?redirectTo=<escaped login URL>]. The login
    URL is the gateway's base URL with hostname [auth.<base>], path
    [/login] and the query [env=<env>&returnPath=<returnPath>]; it, the
    [env] and the [returnPath] are recovered by decoding. The
    Access-Control-Allow-Origin header is the configured base URL, as
    written: it is the provider's origin when the base URL is configured
    as a bare origin. *)
Theorem login_redirects_to_idp (parse_host : string -> option string)
    (cfg : AppConfig) (w : Collaborators) (req : LoginRequest)
    (tunnel : ActiveTunnel.t) (saas : string) :
  startsWith (returnPath_of req) "/" = true ->
  activeTunnelStore_get w (query_env req) = Some tunnel ->
  stored_user w (login_raw req) (ActiveTunnel.publicKeyThumbprint tunnel) = None ->
  authFactory_result w tunnel (login_raw req) = Unauthenticated ->
  saasBaseUrl cfg = Some saas ->
  saas <> EmptyString ->
  let gateway := loginUrl (baseUrl cfg) (query_env req) (Some (returnPath_of req)) in
  exists r,
    result (login parse_host cfg w req) = Returned r
    /\ status r = 302
    /\ location r
       = Some (saas ++ "/api/auth/login?redirectTo="
                    ++ encodeURIComponent (URL_toString gateway))
    /\ percent_decode (encodeURIComponent (URL_toString gateway)) = URL_toString gateway
    /\ hostname gateway = "auth." ++ hostname (baseUrl cfg)
    /\ pathname gateway = "/login"
    /\ query gateway
       = Some ("env=" ++ form_encode (query_env req)
               ++ "&returnPath=" ++ form_encode (returnPath_of req))
    /\ form_decode (form_encode (query_env req)) = query_env req
    /\ form_decode (form_encode (returnPath_of req)) = returnPath_of req
    /\ header_value "Access-Control-Allow-Origin" r = Some saas
    /\ (forall idp,
          URL_new parse_host saas None = Some idp ->
          origin idp = saas ->
          header_value "Access-Control-Allow-Origin" r = Some (origin idp)).
Proof.
  intros Hpath Htunnel Huser Hauth Hsaas Hne gateway.
  eexists. unfold result.
  rewrite (login_idp_run parse_host cfg w req tunnel Hpath Htunnel saas
             Huser Hauth Hsaas Hne).
  unfold saasLoginUrl, buildLoginUrl. subst gateway.
  rewrite (loginUrl_parts _ _ _ Hpath).
  split; [reflexivity|]. split; [reflexivity|]. split; [reflexivity|].
  split; [apply decode_encodeURIComponent|].
  split; [reflexivity|]. split; [reflexivity|]. split; [reflexivity|].
  split; [apply form_decode_encode|]. split; [apply form_decode_encode|].
  split; [reflexivity|].
  intros idp _ ->. reflexivity.
Qed.

Lemma login_redirects_to_idp_witness :
  exists r,
    result (login domain_host (example_cfg (Some "https://idp.example"))
              (example_world None Unauthenticated 0)
              (example_login "my-env" (Some "/dashboard")))
    = Returned r
    /\ location r
       = Some "https://idp.example/api/auth/login?redirectTo=https%3A%2F%2Fauth.example.com%2Flogin%3Fenv%3Dmy-env%26returnPath%3D%252Fdashboard"
    /\ header_value "Access-Control-Allow-Origin" r = Some "https://idp.example".
Proof.
  destruct (login_redirects_to_idp domain_host
              (example_cfg (Some "https://idp.example"))
              (example_world None Unauthenticated 0)
              (example_login "my-env" (Some "/dashboard"))
              example_tunnel "https://idp.example"
              eq_refl eq_refl eq_refl eq_refl eq_refl)
    as (r & Hr & _ & Hloc & _ & _ & _ & _ & _ & _ & Hacao & _).
  - discriminate.
  - exists r. split; [exact Hr | split; [|exact Hacao]].
    rewrite Hloc. vm_compute. reflexivity.
Defined.

(** C4 as the spec states it fails: with the base URL
    [https://idp.example/saas] the header carries that base URL, which is
    not the provider's origin [https://idp.example]. *)
Lemma idp_base_url_is_not_its_origin :
  option_map origin (URL_new domain_host "https://idp.example/saas" None)
  = Some "https://idp.example"
  /\ option_map (header_value "Access-Control-Allow-Origin")
       (match result (login domain_host (example_cfg (Some "https://idp.example/saas"))
                        (example_world None Unauthenticated 0)
                        (example_login "my-env" None)) with
        | Returned r => Some r
        | Threw _ => None
        end)
     = Some (Some "https://idp.example/saas")
  /\ ~ idp_redirect_allows_idp_origin.
Proof.
  split; [vm_compute; reflexivity | split; [vm_compute; reflexivity |]].
  intros Hclaim.
  assert (Hidp : URL_new domain_host "https://idp.example/saas" None
                 = Some (mkURL Https EmptyString EmptyString "idp.example" None
                               ["saas"] None None))
    by (vm_compute; reflexivity).
  destruct (Hclaim domain_host (example_cfg (Some "https://idp.example/saas"))
              (example_world None Unauthenticated 0)
              (example_login "my-env" None) example_tunnel
              "https://idp.example/saas"
              (mkURL Https EmptyString EmptyString "idp.example" None ["saas"] None None)
              eq_refl eq_refl eq_refl eq_refl eq_refl
              ltac:(discriminate) Hidp)
    as (r & Hr & _ & Hacao).
  vm_compute in Hr. injection Hr as <-.
  vm_compute in Hacao. discriminate Hacao.
Qed.

(** ** Tunnel discovery *)

(** C8: when the registry has no tunnels for the thumbprint, the discovery
    endpoint answers 200 with an empty list right after the registry
    lookup: no authenticator is constructed or called. *)
Theorem profile_tunnels_none (w : Collaborators) (req : ProfileRequest) :
  activeTunnelStore_getByPkThumbprint w (params_profileId req) = None
  \/ activeTunnelStore_getByPkThumbprint w (params_profileId req) = Some [] ->
  result (profile_tunnels w req) = Returned (mkResponse 200 [] (PJson (JArray [])))
  /\ events (profile_tunnels w req)
     = [GetByPkThumbprint (params_profileId req);
        Reply (mkResponse 200 [] (PJson (JArray [])))]
  /\ existsb is_auth_call (events (profile_tunnels w req)) = false.
Proof.
  intros Hnone. run_handler.
  destruct Hnone as [-> | ->]; repeat split.
Qed.

Lemma profile_tunnels_none_witness :
  result (profile_tunnels (example_world None Unauthenticated 0)
            (mkProfileRequest example_raw "other-thumbprint"))
  = Returned (mkResponse 200 [] (PJson (JArray []))).
Proof.
  apply (profile_tunnels_none (example_world None Unauthenticated 0)
           (mkProfileRequest example_raw "other-thumbprint")).
  right. reflexivity.
Defined.

(** ** Where the success redirect leads *)

(** C2 fails on the code: a [returnPath] that starts with two slashes
    passes the check and is a network-path reference, so resolving it
    against the tenant's URL keeps the scheme only and takes the host from
    [returnPath]. For every host parser that accepts [evil.example], the
    login of [my-env] with returnPath [//evil.example/x] redirects to
    [https://evil.example/x], off the tenant's host. *)
Theorem login_open_redirect (parse_host : string -> option string) :
  parse_host "evil.example" = Some "evil.example" ->
  startsWith "//evil.example/x" "/" = true
  /\ result (login parse_host (example_cfg None)
               (example_world (Some (JString "alice")) Unauthenticated 0)
               (example_login "my-env" (Some "//evil.example/x")))
     = Returned (mkResponse 302 [("location", "https://evil.example/x")] PEmpty)
  /\ option_map hostname
       (URL_new parse_host "//evil.example/x"
                (Some (tenantUrl example_base "my-env")))
     = Some "evil.example"
  /\ hostname (tenantUrl example_base "my-env") = "my-env.example.com".
Proof.
  intros Hhost.
  assert (Hurl : URL_new parse_host "//evil.example/x"
                   (Some (tenantUrl example_base "my-env"))
                 = Some (mkURL Https EmptyString EmptyString "evil.example" None
                               ["x"] None None)).
  { vm_compute. rewrite Hhost. reflexivity. }
  split; [reflexivity|]. split; [|split; [now rewrite Hurl | reflexivity]].
  unfold result.
  rewrite (login_session_run parse_host (example_cfg None)
             (example_world (Some (JString "alice")) Unauthenticated 0)
             (example_login "my-env" (Some "//evil.example/x"))
             example_tunnel eq_refl eq_refl (JString "alice") _ eq_refl Hurl).
  vm_compute. reflexivity.
Qed.

Lemma login_open_redirect_witness :
  result (login domain_host (example_cfg None)
            (example_world (Some (JString "alice")) Unauthenticated 0)
            (example_login "my-env" (Some "//evil.example/x")))
  = Returned (mkResponse 302 [("location", "https://evil.example/x")] PEmpty).
Proof.
  apply (login_open_redirect domain_host). vm_compute. reflexivity.
Defined.

(** ** Return paths that stay on the tenant's host *)

Lemma cut_at_head (d : ascii) (s : string) :
  fst (cut_at d s) = EmptyString
  \/ exists c pre rest, fst (cut_at d s) = String c pre /\ s = String c rest.
Proof.
  destruct s as [|c rest]; [left; reflexivity|].
  unfold cut_at. cbn [span_until].
  destruct (Ascii.eqb d c); [left; reflexivity|].
  destruct (span_until (Ascii.eqb d) rest) as [pre post].
  right. exists c, pre, rest. destruct post; split; reflexivity.
Qed.

Lemma cut_at_slash_first (d : ascii) (rest : string) :
  Ascii.eqb d "/" = false ->
  exists pre, fst (cut_at d (String "/" rest)) = String "/" pre
              /\ (pre = EmptyString
                  \/ exists c pre' rest', pre = String c pre' /\ rest = String c rest').
Proof.
  intros Hd. unfold cut_at. cbn [span_until]. rewrite Hd.
  destruct (cut_at_head d rest) as [Hhead | (c & pre' & rest' & Hhead & Hrest)];
    unfold cut_at in Hhead;
    destruct (span_until (Ascii.eqb d) rest) as [pre post];
    exists pre; (split; [destruct post; reflexivity|]).
  - left. destruct post; exact Hhead.
  - right. exists c, pre', rest'. split; [destruct post; exact Hhead | exact Hrest].
Qed.

(** A reference that, once cleaned, is a slash followed by anything but a
    second slash or backslash resolves on the base's own scheme, host and
    port: only the path, the query and the fragment come from it. *)
Theorem path_absolute_keeps_host (parse_host : string -> option string)
    (input rest : string) (base : URL) :
  clean_input input = String "/" rest ->
  (forall c rest', rest = String c rest' -> is_slash c = false) ->
  exists u,
    URL_new parse_host input (Some base) = Some u
    /\ protocol u = protocol base
    /\ hostname u = hostname base
    /\ port u = port base.
Proof.
  intros Hclean Hsecond. unfold URL_new. rewrite Hclean.
  destruct (cut_at_slash_first "#" rest eq_refl) as (before & Hbefore & Hb).
  destruct (cut_at "#" (String "/" rest)) as [before' f]. cbn [fst] in Hbefore.
  subst before'.
  destruct (cut_at_slash_first "?" before eq_refl) as (main & Hmain & Hm).
  destruct (cut_at "?" (String "/" before)) as [main' q]. cbn [fst] in Hmain.
  subst main'. cbn [scheme_of]. change (is_alpha "/") with false. cbv iota.
  unfold relative_state. change (is_slash "/") with true. cbv iota.
  destruct main as [|c2 main2].
  - eexists. repeat split.
  - assert (Hc2 : is_slash c2 = false).
    { destruct Hm as [Hm | (c & pre' & rest2 & Hm & Hbefore')]; [discriminate|].
      injection Hm as <- <-.
      destruct Hb as [Hb | (c' & pre2 & rest3 & Hb & Hrest)]; [congruence|].
      rewrite Hb in Hbefore'. injection Hbefore' as <- <-.
      apply (Hsecond c' rest3 Hrest). }
    rewrite Hc2. eexists. repeat split.
Qed.

Lemma path_absolute_keeps_host_witness :
  exists u,
    URL_new domain_host "/dashboard/../x?y#z" (Some (tenantUrl example_base "my-env"))
    = Some u
    /\ protocol u = Https
    /\ hostname u = "my-env.example.com"
    /\ port u = None.
Proof.
  apply (path_absolute_keeps_host domain_host "/dashboard/../x?y#z"
           "dashboard/../x?y#z" (tenantUrl example_base "my-env")).
  - reflexivity.
  - intros c rest' [= <- _]. reflexivity.
Defined.

(** ** The URL model on sample references *)

Example resolve_path_reference :
  option_map URL_toString
    (URL_new domain_host "/a/./b/../c?d=e f#g" (Some (tenantUrl example_base "my-env")))
  = Some "https://my-env.example.com/a/c?d=e%20f#g".
Proof. vm_compute. reflexivity. Qed.

(** Two slashes name an empty host: no URL, whatever the host parser and
    the base. *)
Example resolve_empty_host_fails (parse_host : string -> option string) (base : URL) :
  URL_new parse_host "//" (Some base) = None.
Proof. vm_compute. reflexivity. Qed.

(** Other spellings of a network-path reference that pass the check of
    [/login]: a backslash for the second slash, and a tab between the two
    slashes (tabs and newlines are removed before parsing). *)
Example resolve_slash_backslash :
  startsWith "/\evil.example/x" "/" = true
  /\ option_map URL_toString
       (URL_new domain_host "/\evil.example/x" (Some (tenantUrl example_base "my-env")))
     = Some "https://evil.example/x".
Proof. split; vm_compute; reflexivity. Qed.

Example resolve_slash_tab_slash :
  let returnPath := String "/" (String (ascii_of_nat 9) "/evil.example/x") in
  startsWith returnPath "/" = true
  /\ option_map URL_toString
       (URL_new domain_host returnPath (Some (tenantUrl example_base "my-env")))
     = Some "https://evil.example/x".
Proof. split; vm_compute; reflexivity. Qed.

(* ================================================================== *)
(** * Further properties of app.ts *)
(* ================================================================== *)

(** ** The request path of the server *)

(** X1: a normal request to a control-plane host is handed to Fastify
    without [proxy.routeRequest] being called, whatever the proxy would
    answer. *)
Theorem request_control_plane_direct (base : string) (proxy : Proxy)
    (req : IncomingMessage) :
  classify base req = ControlPlane ->
  existsb is_route_request (on_request base proxy req) = false
  /\ filter is_serve (on_request base proxy req) = [FastifyServes req].
Proof.
  rewrite classify_cases. unfold on_request, offer.
  destruct (isNonProxyRequest base req); [intros _ | discriminate].
  destruct (negb (req_url req =? "/healthz")); split; reflexivity.
Qed.

Lemma request_control_plane_direct_witness :
  filter is_serve
    (on_request "example.com"
       (mkProxy (fun _ => Some (ProxyHandlerRef 7)) (fun _ => None))
       (mkReq "GET" "/login?env=my-env" (Some "auth.example.com")))
  = [FastifyServes (mkReq "GET" "/login?env=my-env" (Some "auth.example.com"))].
Proof.
  apply (request_control_plane_direct "example.com"
           (mkProxy (fun _ => Some (ProxyHandlerRef 7)) (fun _ => None))
           (mkReq "GET" "/login?env=my-env" (Some "auth.example.com"))).
  reflexivity.
Defined.

(** X2: every normal request is given to exactly one handler. It is the
    handler the proxy returned when the host is not a control-plane host
    and the proxy claims the request, and Fastify otherwise: a request the
    proxy declines still gets an HTTP response from the control-plane
    router. *)
Theorem request_served_once (base : string) (proxy : Proxy) (req : IncomingMessage) :
  filter is_serve (on_request base proxy req)
  = match classify base req, routeRequest proxy req with
    | TunnelTraffic, Some h => [ProxyServes h req]
    | _, _ => [FastifyServes req]
    end.
Proof.
  rewrite classify_cases. unfold on_request, offer.
  destruct (isNonProxyRequest base req), (negb (req_url req =? "/healthz"));
    cbn; destruct (routeRequest proxy req); reflexivity.
Qed.

(** X3: the two entry points are never crossed. A normal request never
    reaches [routeUpgrade] or the raw socket; an upgrade request never
    reaches [routeRequest], a request handler of the proxy or Fastify; and
    both offer a request to the proxy under the same condition. The debug
    line of a normal request is written unless the URL is [/healthz]. *)
Theorem no_cross_dispatch (base : string) (proxy : Proxy) (req : IncomingMessage) :
  existsb is_route_upgrade (on_request base proxy req) = false
  /\ socket_closed (on_request base proxy req) = false
  /\ existsb is_route_request (on_upgrade base proxy req) = false
  /\ existsb is_fastify (on_upgrade base proxy req) = false
  /\ existsb is_route_request (on_request base proxy req)
     = existsb is_route_upgrade (on_upgrade base proxy req)
  /\ existsb is_log_debug (on_request base proxy req)
     = negb (String.eqb (req_url req) "/healthz").
Proof.
  unfold on_request, on_upgrade, offer, socket_closed.
  destruct (isNonProxyRequest base req), (negb (req_url req =? "/healthz"));
    cbn; destruct (routeRequest proxy req), (routeUpgrade proxy req);
    repeat split; reflexivity.
Qed.

(** X4: an upgrade the proxy claims is handed to the handler the proxy
    returned, and the server leaves the socket alone: nothing is written,
    the socket is not closed, no warning is logged. *)
Theorem upgrade_claimed (base : string) (proxy : Proxy) (req : IncomingMessage)
    (h : proxy_handler) :
  classify base req = TunnelTraffic ->
  routeUpgrade proxy req = Some h ->
  on_upgrade base proxy req = [LogDebug "upgrade"; RouteUpgrade req; ProxyUpgrades h req]
  /\ socket_written (on_upgrade base proxy req) = EmptyString
  /\ socket_closed (on_upgrade base proxy req) = false
  /\ existsb is_log_warn (on_upgrade base proxy req) = false.
Proof.
  rewrite classify_cases. unfold on_upgrade, offer, socket_closed.
  destruct (isNonProxyRequest base req); [discriminate | intros _ ->].
  repeat split; reflexivity.
Qed.

Lemma upgrade_claimed_witness :
  let proxy := mkProxy (fun _ => None) (fun _ => Some (ProxyHandlerRef 3)) in
  let req := mkReq "GET" "/ws" (Some "my-env.example.com") in
  on_upgrade "example.com" proxy req
  = [LogDebug "upgrade"; RouteUpgrade req; ProxyUpgrades (ProxyHandlerRef 3) req].
Proof.
  intros proxy req.
  apply (upgrade_claimed "example.com" proxy req (ProxyHandlerRef 3)); reflexivity.
Defined.

(** ** More on the host classifier *)

Lemma strip_port_app_colon (h p : string) :
  strip_port (h ++ ":" ++ p) = strip_port h.
Proof.
  induction h as [|c h IH]; [reflexivity|].
  cbn [append strip_port]. destruct (Ascii.eqb c ":"); [reflexivity|].
  f_equal. exact IH.
Qed.

(** X5: the port of the Host header plays no part: a request whose Host
    header is [h:p] is classified like the same request with Host [h],
    for every [h] and every [p] (a number or not). *)
Theorem classify_ignores_port (base : string) (req : IncomingMessage) (h p : string) :
  classify base (with_host req (Some (h ++ ":" ++ p)))
  = classify base (with_host req (Some h)).
Proof.
  unfold classify, isNonProxyRequest. rewrite !request_host_strip.
  cbn [with_host headers_host option_map]. rewrite strip_port_app_colon. reflexivity.
Qed.

Lemma has_colon_strip_port (h : string) : has_colon (strip_port h) = false.
Proof.
  induction h as [|c h IH]; [reflexivity|].
  cbn [strip_port]. destruct (Ascii.eqb c ":") eqn:E; [reflexivity|].
  cbn [has_colon]. rewrite E. exact IH.
Qed.

Lemma has_colon_app (a b : string) : has_colon (a ++ b) = has_colon a || has_colon b.
Proof.
  induction a as [|c a IH]; [reflexivity|].
  cbn [append has_colon]. rewrite IH. apply orb_assoc.
Qed.

(** X6: when the gateway's base hostname contains a colon, as the
    hostname of a URL on an IPv6 literal does, no request is classified as
    control-plane: the Host header is cut at its first colon, so it equals
    neither [auth.<base>] nor [api.<base>]. *)
Theorem colon_base_never_control_plane (base : string) (req : IncomingMessage) :
  has_colon base = true ->
  classify base req = TunnelTraffic.
Proof.
  intros Hbase. rewrite classify_cases.
  destruct (isNonProxyRequest base req) eqn:E; [|reflexivity].
  apply isNonProxyRequest_spec in E. destruct E as (h & _ & [E | E]);
    pose proof (has_colon_strip_port h) as Hstrip; rewrite E, has_colon_app, Hbase in Hstrip;
    rewrite orb_true_r in Hstrip; discriminate.
Qed.

Lemma colon_base_never_control_plane_witness :
  classify "[::1]" (mkReq "GET" "/healthz" (Some "auth.[::1]:3000")) = TunnelTraffic.
Proof.
  apply (colon_base_never_control_plane "[::1]"). reflexivity.
Defined.

(** ** Tunnel discovery with tunnels *)

(** X7: when the registry has tunnels for the thumbprint and the
    authenticator built from the first of them rejects the request, the
    reply is 401 with the text [Unauthenticated]; one authenticator is
    built, from the first tunnel, and nothing about the tunnels is sent. *)
Theorem profile_tunnels_unauthenticated (w : Collaborators) (req : ProfileRequest)
    (first : ActiveTunnel.t) (others : list ActiveTunnel.t) :
  activeTunnelStore_getByPkThumbprint w (params_profileId req) = Some (first :: others) ->
  authFactory_result w first (profile_raw req) = Unauthenticated ->
  result (profile_tunnels w req) = Returned (mkResponse 401 [] (PText "Unauthenticated"))
  /\ events (profile_tunnels w req)
     = [GetByPkThumbprint (params_profileId req); AuthFactory first;
        Authenticate (profile_raw req);
        Reply (mkResponse 401 [] (PText "Unauthenticated"))].
Proof.
  intros Hfound Hauth. run_handler. rewrite Hfound. cbv iota beta.
  rewrite Hauth. split; reflexivity.
Qed.

Lemma profile_tunnels_unauthenticated_witness :
  result (profile_tunnels (example_world None Unauthenticated 0)
            (mkProfileRequest example_raw "thumb"))
  = Returned (mkResponse 401 [] (PText "Unauthenticated")).
Proof.
  apply (profile_tunnels_unauthenticated (example_world None Unauthenticated 0)
           (mkProfileRequest example_raw "thumb") example_tunnel []); reflexivity.
Defined.

(** X8: when the authenticator built from the first tunnel accepts the
    request, the reply is 200 with one JSON object per tunnel, in the
    registry's order, each with the keys [envId], [hostname], [access],
    [meta] and nothing else; the objects are the same whatever the
    tunnels' public keys and thumbprints are. *)
Theorem profile_tunnels_authenticated (w : Collaborators) (req : ProfileRequest)
    (first : ActiveTunnel.t) (others : list ActiveTunnel.t) (c : Claims) :
  activeTunnelStore_getByPkThumbprint w (params_profileId req) = Some (first :: others) ->
  authFactory_result w first (profile_raw req) = Authenticated c ->
  exists items,
    result (profile_tunnels w req) = Returned (mkResponse 200 [] (PJson (JArray items)))
    /\ events (profile_tunnels w req)
       = [GetByPkThumbprint (params_profileId req); AuthFactory first;
          Authenticate (profile_raw req);
          Reply (mkResponse 200 [] (PJson (JArray items)))]
    /\ List.length items = S (List.length others)
    /\ (forall i t, nth_error (first :: others) i = Some t ->
          exists item,
            nth_error items i = Some item
            /\ json_keys item = ["envId"; "hostname"; "access"; "meta"]
            /\ item = JObject [("envId", JString (ActiveTunnel.envId t));
                               ("hostname", JString (ActiveTunnel.hostname t));
                               ("access", ActiveTunnel.access t);
                               ("meta", ActiveTunnel.meta t)]
            /\ forall key thumbprint,
                 item = tunnel_view (ActiveTunnel.mk (ActiveTunnel.envId t)
                                       (ActiveTunnel.hostname t) key thumbprint
                                       (ActiveTunnel.access t) (ActiveTunnel.meta t))).
Proof.
  intros Hfound Hauth. exists (map tunnel_view (first :: others)).
  split; [|split; [|split]].
  - run_handler. rewrite Hfound. cbv iota beta. rewrite Hauth. cbn. reflexivity.
  - run_handler. rewrite Hfound. cbv iota beta. rewrite Hauth. cbn. reflexivity.
  - rewrite length_map. reflexivity.
  - intros i t Hnth. exists (tunnel_view t). split.
    + rewrite nth_error_map, Hnth. reflexivity.
    + repeat split.
Qed.

Lemma profile_tunnels_authenticated_witness :
  exists items,
    result (profile_tunnels (example_world None (Authenticated JNull) 0)
              (mkProfileRequest example_raw "thumb"))
    = Returned (mkResponse 200 [] (PJson (JArray items)))
    /\ List.length items = 1.
Proof.
  destruct (profile_tunnels_authenticated (example_world None (Authenticated JNull) 0)
              (mkProfileRequest example_raw "thumb") example_tunnel [] JNull
              eq_refl eq_refl) as (items & Hres & _ & Hlen & _).
  exists items. split; [exact Hres | exact Hlen].
Defined.


(** ** The login handler as a whole *)

(** X10: when the session holds no user, the authenticator rejects the
    request and no identity-provider base URL is configured, or an empty
    one, the reply is 401 with [{error: 'Unauthorized'}], without a
    redirect, and the session is not written. *)
Theorem login_unauthorized (parse_host : string -> option string)
    (cfg : AppConfig) (w : Collaborators) (req : LoginRequest) (tunnel : ActiveTunnel.t) :
  startsWith (returnPath_of req) "/" = true ->
  activeTunnelStore_get w (query_env req) = Some tunnel ->
  stored_user w (login_raw req) (ActiveTunnel.publicKeyThumbprint tunnel) = None ->
  authFactory_result w tunnel (login_raw req) = Unauthenticated ->
  saasBaseUrl cfg = None \/ saasBaseUrl cfg = Some EmptyString ->
  result (login parse_host cfg w req)
  = Returned (mkResponse 401 [] (error_body "Unauthorized"))
  /\ events (login parse_host cfg w req)
     = [GetTunnel (query_env req);
        OpenSession (ActiveTunnel.publicKeyThumbprint tunnel);
        AuthFactory tunnel; Authenticate (login_raw req);
        Reply (mkResponse 401 [] (error_body "Unauthorized"))]
  /\ existsb is_session_write (events (login parse_host cfg w req)) = false.
Proof.
  intros Hpath Htunnel Huser Hauth Hsaas.
  assert (Hfalsy : truthy (saasBaseUrl cfg) = false)
    by (destruct Hsaas as [-> | ->]; reflexivity).
  unfold result, events.
  rewrite (login_unauthorized_run parse_host cfg w req tunnel Hpath Htunnel
             Huser Hauth Hfalsy).
  repeat split.
Qed.

Lemma login_unauthorized_witness :
  result (login domain_host (example_cfg (Some EmptyString))
            (example_world None Unauthenticated 0) (example_login "my-env" None))
  = Returned (mkResponse 401 [] (error_body "Unauthorized")).
Proof.
  apply (login_unauthorized domain_host (example_cfg (Some EmptyString))
           (example_world None Unauthenticated 0) (example_login "my-env" None)
           example_tunnel); try reflexivity.
  right. reflexivity.
Defined.


(** X12: the login handler either throws without having replied, or
    returns the one reply it issued; the status of that reply is 302, 400,
    401 or 404. *)
Theorem login_replies_once (parse_host : string -> option string)
    (cfg : AppConfig) (w : Collaborators) (req : LoginRequest) :
  match result (login parse_host cfg w req) with
  | Returned r =>
      filter is_reply (events (login parse_host cfg w req)) = [Reply r]
      /\ In (status r) [302; 400; 401; 404]
  | Threw _ => filter is_reply (events (login parse_host cfg w req)) = []
  end.
Proof.
  unfold result, events, run, login.
  destruct (startsWith (returnPath_of req) "/"); run_handler;
    [|split; [reflexivity | cbn; auto]].
  destruct (save_turns w) as [|[|n]]; split_cases; cbn; try reflexivity;
    (split; [reflexivity | cbn; auto]).
Qed.

(** ** Return paths that cannot leave the tenant's host *)

Lemma drop_while_end_none (p : ascii -> bool) (s : string) :
  forallb (fun c => negb (p c)) (list_ascii_of_string s) = true ->
  drop_while_end p s = s.
Proof.
  induction s as [|c s IH]; [reflexivity|].
  cbn [list_ascii_of_string forallb]. intros H.
  apply andb_true_iff in H. destruct H as [Hc Hs].
  cbn [drop_while_end]. rewrite (IH Hs).
  apply negb_true_iff in Hc. rewrite Hc. destruct s; reflexivity.
Qed.

Lemma remove_all_none (p : ascii -> bool) (s : string) :
  forallb (fun c => negb (p c)) (list_ascii_of_string s) = true ->
  remove_all p s = s.
Proof.
  induction s as [|c s IH]; [reflexivity|].
  cbn [list_ascii_of_string forallb]. intros H.
  apply andb_true_iff in H. destruct H as [Hc Hs].
  cbn [remove_all]. apply negb_true_iff in Hc. rewrite Hc, (IH Hs). reflexivity.
Qed.

Lemma tab_or_newline_is_blank (c : ascii) :
  code_in [9; 10; 13] c = true -> in_range 0 32 c = true.
Proof.
  unfold code_in, in_range. cbn [existsb]. rewrite !orb_true_iff, !Nat.eqb_eq.
  intros [-> | [-> | [-> | H]]]; [reflexivity | reflexivity | reflexivity | discriminate].
Qed.

Lemma no_blank_no_tab (s : string) :
  no_blank s = true ->
  forallb (fun c => negb (code_in [9; 10; 13] c)) (list_ascii_of_string s) = true.
Proof.
  unfold no_blank. rewrite !forallb_forall. intros H c Hc.
  specialize (H c Hc). apply negb_true_iff in H. apply negb_true_iff.
  destruct (code_in [9; 10; 13] c) eqn:E; [|reflexivity].
  apply tab_or_newline_is_blank in E. congruence.
Qed.

Lemma clean_input_plain (rest : string) :
  no_blank rest = true ->
  clean_input (String "/" rest) = String "/" rest.
Proof.
  intros Hrest.
  assert (Hall : no_blank (String "/" rest) = true) by exact Hrest.
  unfold clean_input. cbn [drop_while]. change (in_range 0 32 "/") with false. cbv iota.
  rewrite (drop_while_end_none _ _ Hall).
  apply remove_all_none, no_blank_no_tab, Hall.
Qed.

(** X13: a login whose [returnPath] is a slash followed by anything that
    holds no control character or space and does not begin with a second
    slash or a backslash cannot leave the tenant: for a known env and a
    browser that has a session or is authenticated now, the handler does
    not throw, and it redirects to a URL with the scheme, the hostname and
    the port of the tenant URL that line 138 builds for the env. *)
Theorem login_redirect_on_tenant_host (parse_host : string -> option string)
    (cfg : AppConfig) (w : Collaborators) (req : LoginRequest)
    (tunnel : ActiveTunnel.t) (c : Claims) (rest : string) :
  returnPath_of req = String "/" rest ->
  no_blank rest = true ->
  match rest with String ch _ => is_slash ch | EmptyString => false end = false ->
  activeTunnelStore_get w (query_env req) = Some tunnel ->
  stored_user w (login_raw req) (ActiveTunnel.publicKeyThumbprint tunnel) = Some c
  \/ (stored_user w (login_raw req) (ActiveTunnel.publicKeyThumbprint tunnel) = None
      /\ authFactory_result w tunnel (login_raw req) = Authenticated c) ->
  exists u,
    result (login parse_host cfg w req)
    = Returned (mkResponse 302 [("location", URL_toString u)] PEmpty)
    /\ protocol u = protocol (tenantUrl (baseUrl cfg) (query_env req))
    /\ hostname u = hostname (tenantUrl (baseUrl cfg) (query_env req))
    /\ port u = port (tenantUrl (baseUrl cfg) (query_env req)).
Proof.
  intros Hrp Hplain Hsecond Htunnel Hwho.
  assert (Hpath : startsWith (returnPath_of req) "/" = true)
    by (rewrite Hrp; clear; destruct rest; reflexivity).
  destruct (path_absolute_keeps_host parse_host (returnPath_of req) rest
              (tenantUrl (baseUrl cfg) (query_env req)))
    as (u & Hurl & Hproto & Hhost & Hport).
  - rewrite Hrp. apply clean_input_plain, Hplain.
  - intros ch rest' ->. exact Hsecond.
  - exists u. split; [|split; [exact Hproto | split; [exact Hhost | exact Hport]]].
    unfold result. destruct Hwho as [Huser | [Huser Hauth]].
    + rewrite (login_session_run parse_host cfg w req tunnel Hpath Htunnel c u Huser Hurl).
      reflexivity.
    + rewrite (login_authenticated_run parse_host cfg w req tunnel Hpath Htunnel c u
                 Huser Hauth Hurl).
      reflexivity.
Qed.

Lemma login_redirect_on_tenant_host_witness :
  exists u,
    result (login domain_host (example_cfg None)
              (example_world None (Authenticated (JString "alice")) 0)
              (example_login "my-env" (Some "/a/b?next=//evil.example")))
    = Returned (mkResponse 302 [("location", URL_toString u)] PEmpty)
    /\ protocol u = Https
    /\ hostname u = "my-env.example.com"
    /\ port u = None.
Proof.
  apply (login_redirect_on_tenant_host domain_host (example_cfg None)
           (example_world None (Authenticated (JString "alice")) 0)
           (example_login "my-env" (Some "/a/b?next=//evil.example"))
           example_tunnel (JString "alice") "a/b?next=//evil.example");
    try reflexivity.
  right. split; reflexivity.
Defined.

(** X14: when [returnPath] passes the check but does not resolve as a URL
    (two slashes and nothing else, for one), a request that is
    authenticated now has its claims staged and [session.save()] called
    before [new URL] throws: the handler ends without a reply, and the
    save has been started all the same. *)
Theorem login_throws_after_save (parse_host : string -> option string)
    (cfg : AppConfig) (w : Collaborators) (req : LoginRequest)
    (tunnel : ActiveTunnel.t) (c : Claims) :
  startsWith (returnPath_of req) "/" = true ->
  activeTunnelStore_get w (query_env req) = Some tunnel ->
  stored_user w (login_raw req) (ActiveTunnel.publicKeyThumbprint tunnel) = None ->
  authFactory_result w tunnel (login_raw req) = Authenticated c ->
  URL_new parse_host (returnPath_of req)
          (Some (tenantUrl (baseUrl cfg) (query_env req))) = None ->
  result (login parse_host cfg w req) = Threw "TypeError: Invalid URL"
  /\ filter is_reply (events (login parse_host cfg w req)) = []
  /\ firstn 6 (events (login parse_host cfg w req))
     = [GetTunnel (query_env req);
        OpenSession (ActiveTunnel.publicKeyThumbprint tunnel);
        AuthFactory tunnel; Authenticate (login_raw req);
        SessionSet c; SessionSave]
  /\ (save_turns w = 0 ->
      In (SessionDurable (ActiveTunnel.publicKeyThumbprint tunnel) (Some c))
         (events (login parse_host cfg w req))).
Proof.
  intros Hpath Htunnel Huser Hauth Hurl.
  unfold result, events, run, login. rewrite Hpath. run_handler.
  rewrite Htunnel, Huser, Hauth, Hurl.
  destruct (save_turns w) as [|n]; cbn.
  - repeat split. intros _. do 6 right. left. reflexivity.
  - repeat split. discriminate.
Qed.

Lemma login_throws_after_save_witness :
  result (login domain_host (example_cfg None)
            (example_world None (Authenticated (JString "alice")) 0)
            (example_login "my-env" (Some "//")))
  = Threw "TypeError: Invalid URL"
  /\ filter is_reply
       (events (login domain_host (example_cfg None)
                  (example_world None (Authenticated (JString "alice")) 0)
                  (example_login "my-env" (Some "//")))) = [].
Proof.
  pose proof (login_throws_after_save domain_host (example_cfg None)
                (example_world None (Authenticated (JString "alice")) 0)
                (example_login "my-env" (Some "//")) example_tunnel (JString "alice")
                eq_refl eq_refl eq_refl eq_refl eq_refl) as (Hres & Hnone & _).
  split; [exact Hres | exact Hnone].
Defined.

(** ** What the escaped values can hold *)

Lemma chars_app (a b : string) :
  list_ascii_of_string (a ++ b) = (list_ascii_of_string a ++ list_ascii_of_string b)%list.
Proof.
  induction a as [|c a IH]; [reflexivity|]. cbn. now rewrite IH.
Qed.

Lemma hex_digit_unescaped (n : nat) :
  n < 16 -> uri_unescaped (hex_digit n) = true /\ form_unescaped (hex_digit n) = true.
Proof.
  intros Hn. do 16 (destruct n as [|n]; [split; reflexivity|]). lia.
Qed.

Lemma percent_byte_chars (keep : ascii -> bool) (c : ascii) :
  (forall n, n < 16 -> keep (hex_digit n) = true) ->
  forallb (fun x => keep x || Ascii.eqb x "%") (list_ascii_of_string (percent_byte c)) = true.
Proof.
  intros Hhex. unfold percent_byte. cbn [list_ascii_of_string forallb].
  rewrite !Hhex.
  - change (Ascii.eqb "%" "%") with true. now rewrite orb_true_r.
  - apply Nat.mod_upper_bound. discriminate.
  - apply Nat.Div0.div_lt_upper_bound. unfold code.
    pose proof (nat_ascii_bounded c). lia.
Qed.

Lemma encodeURIComponent_chars (s : string) :
  forallb (fun x => uri_unescaped x || Ascii.eqb x "%")
          (list_ascii_of_string (encodeURIComponent s)) = true.
Proof.
  unfold encodeURIComponent. induction s as [|c s IH]; [reflexivity|].
  cbn [percent_encode]. rewrite chars_app, forallb_app, IH, andb_true_r.
  destruct (uri_unescaped c) eqn:Hc; cbn [negb].
  - cbn. now rewrite Hc.
  - apply percent_byte_chars. intros n Hn. apply hex_digit_unescaped, Hn.
Qed.

Lemma occurs_excluded (allowed : ascii -> bool) (c : ascii) (s : string) :
  forallb allowed (list_ascii_of_string s) = true ->
  allowed c = false ->
  occurs c s = false.
Proof.
  intros Hall Hc. unfold occurs.
  destruct (existsb (Ascii.eqb c) (list_ascii_of_string s)) eqn:E; [|reflexivity].
  apply existsb_exists in E. destruct E as (x & Hin & Hx).
  apply Ascii.eqb_eq in Hx. subst x.
  rewrite forallb_forall in Hall. rewrite (Hall c Hin) in Hc. discriminate.
Qed.

(** X15: in the redirect to the identity provider (line 130) the value of
    [redirectTo] is one parameter, whatever [env] and [returnPath] hold:
    it contains no [&], [=], [#], [?], [/], [:], [+] or space, so nothing
    in the request can add a parameter or a fragment to the provider's
    URL, and decoding it gives back the login URL. *)
Theorem redirectTo_is_one_parameter (saas : string) (base : URL) (env returnPath : string) :
  exists v,
    saasLoginUrl saas base env returnPath = saas ++ "/api/auth/login?redirectTo=" ++ v
    /\ percent_decode v = buildLoginUrl base env (Some returnPath)
    /\ occurs "&" v = false /\ occurs "=" v = false /\ occurs "#" v = false
    /\ occurs "?" v = false /\ occurs "/" v = false /\ occurs ":" v = false
    /\ occurs "+" v = false /\ occurs " " v = false.
Proof.
  exists (encodeURIComponent (buildLoginUrl base env (Some returnPath))).
  split; [reflexivity|]. split; [apply percent_decode_encode; reflexivity|].
  repeat split;
    apply (occurs_excluded _ _ _ (encodeURIComponent_chars _)); reflexivity.
Qed.

(** ** Return paths that do leave the tenant's host *)

Lemma forallb_weaken (P Q : ascii -> bool) (l : list ascii) :
  (forall c, P c = true -> Q c = true) ->
  forallb P l = true -> forallb Q l = true.
Proof.
  intros HPQ. rewrite !forallb_forall. intros H c Hc. apply HPQ, H, Hc.
Qed.

Lemma plain_host_char_not (d c : ascii) :
  plain_host_char d = false -> plain_host_char c = true -> Ascii.eqb d c = false.
Proof.
  intros Hd Hc. destruct (Ascii.eqb d c) eqn:E; [|reflexivity].
  apply Ascii.eqb_eq in E. subst c. congruence.
Qed.

Lemma span_until_none (stop : ascii -> bool) (s : string) :
  forallb (fun c => negb (stop c)) (list_ascii_of_string s) = true ->
  span_until stop s = (s, EmptyString).
Proof.
  induction s as [|c s IH]; [reflexivity|].
  cbn [list_ascii_of_string forallb]. intros H.
  apply andb_true_iff in H. destruct H as [Hc Hs].
  cbn [span_until]. apply negb_true_iff in Hc. rewrite Hc, (IH Hs). reflexivity.
Qed.

Lemma cut_at_none (d : ascii) (s : string) :
  forallb (fun c => negb (Ascii.eqb d c)) (list_ascii_of_string s) = true ->
  cut_at d s = (s, None).
Proof.
  intros H. unfold cut_at. rewrite (span_until_none _ _ H). reflexivity.
Qed.

Lemma cut_at_last_none (d : ascii) (s : string) :
  forallb (fun c => negb (Ascii.eqb d c)) (list_ascii_of_string s) = true ->
  cut_at_last d s = None.
Proof.
  induction s as [|c s IH]; [reflexivity|].
  cbn [list_ascii_of_string forallb]. intros H.
  apply andb_true_iff in H. destruct H as [Hc Hs].
  cbn [cut_at_last]. rewrite (IH Hs).
  apply negb_true_iff in Hc. rewrite Ascii.eqb_sym, Hc. reflexivity.
Qed.

Lemma host_and_port_none (inside : bool) (s : string) :
  forallb (fun c => negb (Ascii.eqb ":" c)) (list_ascii_of_string s) = true ->
  host_and_port inside s = (s, None).
Proof.
  revert inside. induction s as [|c s IH]; intros inside; [reflexivity|].
  cbn [list_ascii_of_string forallb]. intros H.
  apply andb_true_iff in H. destruct H as [Hc Hs].
  cbn [host_and_port]. apply negb_true_iff in Hc.
  rewrite Ascii.eqb_sym, Hc. cbn [andb]. rewrite (IH _ Hs). reflexivity.
Qed.

Lemma network_path_resolves (parse_host : string -> option string)
    (h : string) (base : URL) :
  plain_host h = true ->
  URL_new parse_host (String "/" (String "/" h)) (Some base)
  = match parse_host h with
    | Some parsed =>
        Some (mkURL (protocol base) EmptyString EmptyString parsed None
                    [EmptyString] None None)
    | None => None
    end.
Proof.
  unfold plain_host. intros Hh. apply andb_true_iff in Hh. destruct Hh as [Hne Hchars].
  pose proof (fun d Hd => forallb_weaken _ (fun c => negb (Ascii.eqb d c)) _
                (fun c Hc => proj2 (negb_true_iff _) (plain_host_char_not d c Hd Hc))
                Hchars) as Hfree.
  assert (Hblank : no_blank (String "/" h) = true).
  { unfold no_blank. cbn [list_ascii_of_string forallb].
    change (in_range 0 32 "/") with false. cbn [negb andb].
    revert Hchars. apply forallb_weaken. unfold plain_host_char.
    intros c Hc. apply andb_true_iff in Hc. apply Hc. }
  assert (Hslash : forallb (fun c => negb (is_slash c)) (list_ascii_of_string h) = true).
  { revert Hchars. apply forallb_weaken. unfold plain_host_char, is_slash, code_in.
    cbn [existsb]. intros c Hc. apply andb_true_iff in Hc. destruct Hc as [Hc _].
    apply negb_true_iff in Hc. apply negb_true_iff.
    repeat (apply orb_false_iff in Hc; destruct Hc as [? Hc]).
    repeat (apply orb_false_iff; split); assumption. }
  unfold URL_new. rewrite (clean_input_plain _ Hblank).
  assert (Hcut : forall d, plain_host_char d = false -> Ascii.eqb d "/" = false ->
                 cut_at d (String "/" (String "/" h)) = (String "/" (String "/" h), None)).
  { intros d Hd Hds. apply cut_at_none. cbn [list_ascii_of_string forallb].
    rewrite Hds. cbn [negb andb]. apply Hfree, Hd. }
  rewrite (Hcut "#"%char eq_refl eq_refl), (Hcut "?"%char eq_refl eq_refl).
  cbn [scheme_of option_map]. change (is_alpha "/") with false. cbv iota.
  unfold relative_state. change (is_slash "/") with true. cbv iota.
  cbn [drop_while]. change (is_slash "/") with true. cbv iota.
  assert (Hdrop : drop_while is_slash h = h).
  { destruct h as [|c h']; [reflexivity|]. cbn [drop_while].
    cbn [list_ascii_of_string forallb] in Hslash. apply andb_true_iff in Hslash.
    destruct Hslash as [Hc _]. apply negb_true_iff in Hc. now rewrite Hc. }
  rewrite Hdrop. unfold authority_and_path. rewrite (span_until_none _ _ Hslash).
  unfold parse_authority.
  rewrite (cut_at_last_none "@" h (Hfree "@"%char eq_refl)).
  change (cut_at ":" EmptyString) with (EmptyString, @None string).
  rewrite (host_and_port_none false h (Hfree ":"%char eq_refl)).
  apply negb_true_iff in Hne. rewrite Hne.
  destruct (parse_host h); reflexivity.
Qed.

(** X16: the open redirect in full: for every plain host name [h], a
    login with [returnPath] equal to two slashes and [h] passes the check,
    and for a known env and a session that holds claims it redirects to
    the URL [<scheme>://<h'>/] where [h'] is what the host parser makes of
    [h]; of the tenant URL only the scheme is left. When the host parser
    refuses [h] the handler throws instead. *)
Theorem login_network_path_redirect (parse_host : string -> option string)
    (cfg : AppConfig) (w : Collaborators) (req : LoginRequest)
    (tunnel : ActiveTunnel.t) (c : Claims) (h : string) :
  plain_host h = true ->
  returnPath_of req = String "/" (String "/" h) ->
  activeTunnelStore_get w (query_env req) = Some tunnel ->
  stored_user w (login_raw req) (ActiveTunnel.publicKeyThumbprint tunnel) = Some c ->
  startsWith (returnPath_of req) "/" = true
  /\ result (login parse_host cfg w req)
     = match parse_host h with
       | Some parsed =>
           Returned
             (mkResponse 302
                [("location",
                  URL_toString
                    (mkURL (protocol (tenantUrl (baseUrl cfg) (query_env req)))
                           EmptyString EmptyString parsed None [EmptyString] None None))]
                PEmpty)
       | None => Threw "TypeError: Invalid URL"
       end.
Proof.
  intros Hh Hrp Htunnel Huser.
  assert (Hpath : startsWith (returnPath_of req) "/" = true) by (rewrite Hrp; reflexivity).
  split; [exact Hpath|].
  pose proof (network_path_resolves parse_host h
                (tenantUrl (baseUrl cfg) (query_env req)) Hh) as Hurl.
  rewrite <- Hrp in Hurl. unfold result.
  destruct (parse_host h) as [parsed|].
  - rewrite (login_session_run parse_host cfg w req tunnel Hpath Htunnel c _ Huser Hurl).
    reflexivity.
  - rewrite (login_session_throws parse_host cfg w req tunnel Hpath Htunnel c Huser Hurl).
    reflexivity.
Qed.

Lemma login_network_path_redirect_witness :
  result (login domain_host (example_cfg None)
            (example_world (Some (JString "alice")) Unauthenticated 0)
            (example_login "my-env" (Some "//Phish.Example")))
  = Returned (mkResponse 302 [("location", "https://phish.example/")] PEmpty).
Proof.
  exact (proj2 (login_network_path_redirect domain_host (example_cfg None)
                  (example_world (Some (JString "alice")) Unauthenticated 0)
                  (example_login "my-env" (Some "//Phish.Example"))
                  example_tunnel (JString "alice") "Phish.Example"
                  eq_refl eq_refl eq_refl eq_refl)).
Defined.

(** ** When the session is written *)

(** X17: the login handler writes the session ([session.set],
    [session.save]) exactly when the check of [returnPath] passes, the env
    is known, the session holds no user and the authenticator
    authenticates the request; in every other run, the redirect to the
    identity provider and all error replies included, the session is left
    as it was. *)
Theorem login_writes_session_iff (parse_host : string -> option string)
    (cfg : AppConfig) (w : Collaborators) (req : LoginRequest) :
  existsb is_session_write (events (login parse_host cfg w req)) = true
  <-> exists tunnel c,
        startsWith (returnPath_of req) "/" = true
        /\ activeTunnelStore_get w (query_env req) = Some tunnel
        /\ stored_user w (login_raw req) (ActiveTunnel.publicKeyThumbprint tunnel) = None
        /\ authFactory_result w tunnel (login_raw req) = Authenticated c.
Proof.
  unfold events, run, login.
  destruct (startsWith (returnPath_of req) "/") eqn:Hpath; run_handler; cbn [negb].
  - destruct (save_turns w) as [|[|n]]; split_cases; cbn;
      (split; [intros H; try discriminate H; eauto 8
              | intros (tunnel' & c' & _ & Ht & Hu & Ha); try reflexivity; congruence]).
  - split; [discriminate | intros (tunnel' & c' & H & _); discriminate H].
Qed.
